(** * FASTQ statistics: a model of [FASTQProcessor] (analiz_FASTQC.py)

    The development embeds the class [FASTQProcessor] of
    [src/analiz_FASTQC.py]: the parser [parse_fastq] with its two helpers
    [_count_bases] and [_analyze_quality], and the three summary methods
    [get_basic_stats], [get_quality_stats] and [get_base_composition].

    Conventions.
    - A Python [str] is a list of code points ([N]); [ord] is the injection
      into [Z]; Python integers are [Z].
    - A method is a computation in the monad [Py]: it receives the object,
      returns the (possibly mutated) object and either a value or the
      exception it raised.
    - [base_counts], a [defaultdict(int)], is a [gmap] with the two accesses
      the code uses written out: reading a missing key stores [0] under it.
    - What the interpreter and its libraries provide and the source only
      calls (the UTF-8 codec, gzip, the Unicode upper-case table, the
      exception of an [open] that fails) is the interface [Runtime]; the
      file system is a function from paths to contents.
    - A summary is the tuple of values the f-string interpolates, in the
      order it interpolates them, with a quotient computed by [/] kept as
      the exact rational ([Q]). The double Python holds in its place is
      [binary64] of that rational, and the digits an f-string prints are
      [fixed] of the double; the labels and the layout of the text are
      outside the model, and so is the [OverflowError] of a quotient beyond
      the range of doubles. *)

From Stdlib Require Import ZArith NArith QArith Qpower List Lia Lqa.
From Stdlib Require Import Strings.String Strings.Ascii Init.Byte.
From stdpp Require Import gmap list fin_maps.

Local Open Scope Z_scope.

(** ** Python strings *)

Abbreviation char := N (only parsing).
Abbreviation str := (list N) (only parsing).

Definition ord (c : char) : Z := Z.of_N c.

(** An ASCII literal as a Python string. *)
Definition py (s : string) : str :=
  map (fun a => N.of_nat (nat_of_ascii a)) (list_ascii_of_string s).

Definition len {A} (l : list A) : Z := Z.of_nat (length l).

(** [c in s] for a one-character [c]. *)
Definition char_in (c : char) (s : str) : bool := existsb (N.eqb c) s.

(** [s.endswith(suffix)] *)
Definition endswith (s suffix : str) : bool :=
  bool_decide (drop (length s - length suffix) s = suffix
               ∧ (length suffix <= length s)%nat).

(** The characters [str.strip()] removes: those for which [str.isspace]
    holds. *)
Definition is_space (c : char) : bool :=
  ((9 <=? c) && (c <=? 13) || (28 <=? c) && (c <=? 32)
   || (c =? 133) || (c =? 160) || (c =? 5760)
   || (8192 <=? c) && (c <=? 8202)
   || (c =? 8232) || (c =? 8233) || (c =? 8239) || (c =? 8287)
   || (c =? 12288))%N.

Fixpoint lstrip (s : str) : str :=
  match s with
  | [] => []
  | c :: s' => if is_space c then lstrip s' else s
  end.

Definition rstrip (s : str) : str := rev (lstrip (rev s)).

Definition strip (s : str) : str := rstrip (lstrip s).

(** Upper-casing of the ASCII range. *)
Definition ascii_upper (c : char) : char :=
  if ((97 <=? c) && (c <=? 122))%N then (c - 32)%N else c.

(** ** Text files *)

Definition LF : char := 10%N.
Definition CR : char := 13%N.

(** Universal newlines (text mode, [newline=None]): CR LF and a lone CR are
    read as LF. *)
Fixpoint universal_newlines (s : str) : str :=
  match s with
  | [] => []
  | c :: s' =>
      if (c =? CR)%N then
        match s' with
        | d :: s'' =>
            if (d =? LF)%N then LF :: universal_newlines s''
            else LF :: universal_newlines s'
        | [] => [LF]
        end
      else c :: universal_newlines s'
  end.

(** Splitting at LF, each line keeping its terminator. *)
Fixpoint split_keepends (s : str) : list str :=
  match s with
  | [] => []
  | c :: s' =>
      if (c =? LF)%N then [c] :: split_keepends s'
      else match split_keepends s' with
           | [] => [[c]]
           | l :: ls => (c :: l) :: ls
           end
  end.

(** [file.readlines()] on the decoded content of a text-mode file. *)
Definition readlines (content : str) : list str :=
  split_keepends (universal_newlines content).

Definition byte_code (b : byte) : char := Byte.to_N b.

(** The exceptions of the model. [DecompressError] stands for whatever
    gzip raises on bytes that are no archive. *)
Inductive exn :=
  | OSError
  | DecompressError
  | IndexError
  | ValueError
  | ZeroDivisionError.

(** What the interpreter provides. [upper_full c] is the upper-case image of
    one character ([str.upper] maps each character on its own, and some
    images have several characters). [open_error p] is the exception [open]
    raises for a path [p] it cannot open: [OSError] for a missing or
    unreadable file, [ValueError] for a path that is no file name, as one
    with a NUL character. *)
Class Runtime := {
  utf8_decode_ignore : list byte -> str;
  gunzip : list byte -> option (list byte);
  upper_full : char -> str;
  open_error : str -> exn;
  utf8_decode_ignore_ascii : forall bs : list byte,
    Forall (fun b => (byte_code b < 128)%N) bs ->
    utf8_decode_ignore bs = map byte_code bs;
  gunzip_nil : gunzip [] = Some [];
  upper_full_ascii : forall c : char,
    (c < 128)%N -> upper_full c = [ascii_upper c];
  open_error_nul : forall file_path : str,
    char_in 0%N file_path = true -> open_error file_path = ValueError
}.

(** [s.upper()] *)
Definition upper `{Runtime} (s : str) : str := flat_map upper_full s.

(** A file system: the bytes stored under a path, [None] when the path
    cannot be opened: no such file, or no file name at all, as a path with
    a NUL character. *)
Definition filesystem := str -> option (list byte).

(** ** Exceptions and the method monad *)

Definition result (A : Type) : Type := exn + A.

Record FASTQProcessor := mkProcessor {
  sequences_count : Z;
  total_length : Z;
  sequence_lengths : list Z;
  quality_scores : list Z;
  base_counts : gmap N Z
}.

Definition Py (A : Type) : Type :=
  FASTQProcessor -> FASTQProcessor * result A.

Definition py_ret {A} (a : A) : Py A := fun self => (self, inr a).

Definition py_bind {A B} (m : Py A) (k : A -> Py B) : Py B :=
  fun self =>
    match m self with
    | (self', inr a) => k a self'
    | (self', inl e) => (self', inl e)
    end.

Definition lift {A} (r : result A) : Py A := fun self => (self, r).

Definition get : Py FASTQProcessor := fun self => (self, inr self).

Definition modify (f : FASTQProcessor -> FASTQProcessor) : Py unit :=
  fun self => (f self, inr tt).

Declare Scope py_scope.
Delimit Scope py_scope with py.
Notation "x <- m ;; k" := (py_bind m (fun x => k))
  (at level 100, m at next level, right associativity) : py_scope.
Notation "m ;;; k" := (py_bind m (fun _ => k))
  (at level 100, right associativity) : py_scope.
Local Open Scope py_scope.

(** [for x in xs: body] *)
Fixpoint for_each {A} (xs : list A) (body : A -> Py unit) : Py unit :=
  match xs with
  | [] => py_ret tt
  | x :: xs' => body x ;;; for_each xs' body
  end.

(** [l[i]] with Python's negative indices. *)
Definition getitem {A} (l : list A) (i : Z) : result A :=
  let j := if i <? 0 then i + len l else i in
  if (0 <=? j) && (j <? len l) then
    match l !! Z.to_nat j with
    | Some a => inr a
    | None => inl IndexError
    end
  else inl IndexError.

(** The elements of [range(start, stop, step)] for a positive step. *)
Definition range_len (lo hi step : Z) : Z :=
  if lo <? hi then (hi - lo - 1) / step + 1 else 0.

Definition py_range (start stop step : Z) : list Z :=
  map (fun k : nat => start + Z.of_nat k * step)
      (seq 0 (Z.to_nat (range_len start stop step))).

(** Field updates. *)
Definition set_sequences_count (v : Z) (p : FASTQProcessor) :=
  mkProcessor v (total_length p) (sequence_lengths p) (quality_scores p)
              (base_counts p).
Definition set_total_length (v : Z) (p : FASTQProcessor) :=
  mkProcessor (sequences_count p) v (sequence_lengths p) (quality_scores p)
              (base_counts p).
Definition set_sequence_lengths (v : list Z) (p : FASTQProcessor) :=
  mkProcessor (sequences_count p) (total_length p) v (quality_scores p)
              (base_counts p).
Definition set_quality_scores (v : list Z) (p : FASTQProcessor) :=
  mkProcessor (sequences_count p) (total_length p) (sequence_lengths p) v
              (base_counts p).
Definition set_base_counts (v : gmap N Z) (p : FASTQProcessor) :=
  mkProcessor (sequences_count p) (total_length p) (sequence_lengths p)
              (quality_scores p) v.

(** ** The class [FASTQProcessor] *)

(** [__init__] *)
Definition init : FASTQProcessor := mkProcessor 0 0 [] [] ∅.

(** [self.base_counts[k]] on a [defaultdict(int)]: a missing key is stored
    with the default [0] before it is returned. *)
Definition base_counts_getitem (k : char) : Py Z :=
  fun self =>
    match base_counts self !! k with
    | Some v => (self, inr v)
    | None => (set_base_counts (<[k := 0]> (base_counts self)) self, inr 0)
    end.

(** [self.base_counts[k] = v] *)
Definition base_counts_setitem (k : char) (v : Z) : Py unit :=
  modify (fun self => set_base_counts (<[k := v]> (base_counts self)) self).

Section Processor.
Context `{Runtime}.
Variable fs : filesystem.

(** [_count_bases] (lines 82-95) *)
Definition _count_bases (sequence : str) : Py unit :=
  let sequence_upper := upper sequence in
  for_each sequence_upper (fun base =>
    if char_in base (py "ATGC") then
      v <- base_counts_getitem base ;;
      base_counts_setitem base (v + 1)
    else py_ret tt).

(** [_analyze_quality] (lines 97-108) *)
Definition _analyze_quality (quality_string : str) : Py unit :=
  let quality_scores' := map (fun c => ord c - 33) quality_string in
  modify (fun self =>
    set_quality_scores (quality_scores self ++ quality_scores') self).

(** [gzip.open(path, 'rt', ...)] and [open(path, 'rt', ...)] followed by
    the read of the whole content, with [encoding='utf-8'] and
    [errors='ignore']. *)
Definition gzip_open (file_path : str) : result str :=
  match fs file_path with
  | None => inl (open_error file_path)
  | Some raw =>
      match gunzip raw with
      | None => inl DecompressError
      | Some data => inr (utf8_decode_ignore data)
      end
  end.

Definition plain_open (file_path : str) : result str :=
  match fs file_path with
  | None => inl (open_error file_path)
  | Some raw => inr (utf8_decode_ignore raw)
  end.

(** The body of the loop of [parse_fastq] (lines 57-80). *)
Definition parse_block (lines : list str) (i : Z) : Py unit :=
  if i + 3 <? len lines then
    sequence_line <- lift (getitem lines (i + 1)) ;;
    let sequence_line := strip sequence_line in
    quality_line <- lift (getitem lines (i + 3)) ;;
    let quality_line := strip quality_line in
    modify (fun self =>
      set_sequences_count (sequences_count self + 1) self) ;;;
    let seq_len := len sequence_line in
    modify (fun self => set_total_length (total_length self + seq_len) self) ;;;
    modify (fun self =>
      set_sequence_lengths (sequence_lengths self ++ [seq_len]) self) ;;;
    _count_bases sequence_line ;;;
    _analyze_quality quality_line
  else py_ret tt.

(** The loop of [parse_fastq] (lines 55-80). *)
Definition parse_lines (lines : list str) : Py unit :=
  for_each (py_range 0 (len lines) 4) (parse_block lines).

(** [parse_fastq] (lines 27-80) *)
Definition parse_fastq (file_path : str) : Py unit :=
  modify (set_sequences_count 0) ;;;
  modify (set_total_length 0) ;;;
  modify (set_sequence_lengths []) ;;;
  modify (set_quality_scores []) ;;;
  modify (set_base_counts ∅) ;;;
  let opener := if endswith file_path (py ".gz") then gzip_open
                else plain_open in
  content <- lift (opener file_path) ;;
  let lines := readlines content in
  parse_lines lines.

End Processor.

(** ** The summary methods

    Each returns the message of its "no data" branch or the values its
    f-strings interpolate. *)

Inductive view (A : Type) :=
  | NoData (message : string)
  | Report (a : A).
Arguments NoData {A} message.
Arguments Report {A} a.

Record basic_stats := mkBasic {
  bs_count : Z;
  bs_avg_length : Q;
  bs_min_length : Z;
  bs_max_length : Z;
  bs_total_length : Z
}.

Record quality_stats := mkQuality {
  qs_avg_quality : Q;
  qs_min_quality : Z;
  qs_max_quality : Z;
  qs_count : Z
}.

(** One line of the composition: base, count, percentage. *)
Record base_line := mkLine {
  bl_base : N;
  bl_count : Z;
  bl_percentage : Q
}.

(** [a / b] on integers, as the exact quotient: Python returns the double
    nearest to it, [binary64] of this value. *)
Definition truediv (a b : Z) : result Q :=
  if b =? 0 then inl ZeroDivisionError
  else inr (inject_Z a / inject_Z b)%Q.

Definition py_sum (l : list Z) : Z := fold_left Z.add l 0.

Definition py_min (l : list Z) : result Z :=
  match l with
  | [] => inl ValueError
  | x :: l' => inr (fold_left Z.min l' x)
  end.

Definition py_max (l : list Z) : result Z :=
  match l with
  | [] => inl ValueError
  | x :: l' => inr (fold_left Z.max l' x)
  end.

(** [d.values()] *)
Definition values (d : gmap N Z) : list Z := snd <$> map_to_list d.

(** [for x in xs: acc = body(acc, x)] for a local variable [acc]. *)
Fixpoint for_fold {A B} (xs : list A) (acc : B) (body : B -> A -> Py B)
  : Py B :=
  match xs with
  | [] => py_ret acc
  | x :: xs' => acc' <- body acc x ;; for_fold xs' acc' body
  end.

(** [get_basic_stats] (lines 110-126) *)
Definition get_basic_stats : Py (view basic_stats) :=
  self <- get ;;
  if sequences_count self =? 0 then
    py_ret (NoData "нет данных для анализа")
  else
    avg_length <- lift (truediv (total_length self) (sequences_count self)) ;;
    min_length <- lift (py_min (sequence_lengths self)) ;;
    max_length <- lift (py_max (sequence_lengths self)) ;;
    py_ret (Report (mkBasic (sequences_count self) avg_length
                            min_length max_length (total_length self))).

(** [get_quality_stats] (lines 128-143) *)
Definition get_quality_stats : Py (view quality_stats) :=
  self <- get ;;
  if bool_decide (quality_scores self = []) then
    py_ret (NoData "нет данных о качестве")
  else
    avg_quality <- lift (truediv (py_sum (quality_scores self))
                                 (len (quality_scores self))) ;;
    min_quality <- lift (py_min (quality_scores self)) ;;
    max_quality <- lift (py_max (quality_scores self)) ;;
    py_ret (Report (mkQuality avg_quality min_quality max_quality
                              (len (quality_scores self)))).

(** [get_base_composition] (lines 145-160) *)
Definition get_base_composition : Py (view (list base_line)) :=
  self <- get ;;
  if bool_decide (base_counts self = ∅) then
    py_ret (NoData "нет данных о составе оснований")
  else
    let total_bases := py_sum (values (base_counts self)) in
    composition <-
      for_fold (py "ATGC") [] (fun composition base =>
        count <- base_counts_getitem base ;;
        percentage <-
          (if total_bases >? 0 then
             q <- lift (truediv count total_bases) ;;
             py_ret (q * 100)%Q
           else py_ret 0%Q) ;;
        py_ret (composition ++ [mkLine base count percentage])) ;;
    py_ret (Report composition).

(** ** An instance of the interface for ASCII files

    The ASCII codec with [errors='ignore'] agrees with UTF-8 on files
    without a byte above 127; the upper-case table is the ASCII one; the
    archive format is a two-byte mark in front of the stored content; a
    path that cannot be opened raises [ValueError] when it holds a NUL
    character and [OSError] otherwise. It serves to run the model on
    concrete files. *)

Definition ascii_decode_ignore (bs : list byte) : str :=
  filter (fun c => (c < 128)%N) (map byte_code bs).

Definition ascii_upper_full (c : char) : str :=
  if (c <? 128)%N then [ascii_upper c] else [c].

Definition stored_gunzip (bs : list byte) : option (list byte) :=
  match bs with
  | [] => Some []
  | x1f :: x8b :: data => Some data
  | _ => None
  end.

Definition nul_open_error (file_path : str) : exn :=
  if char_in 0%N file_path then ValueError else OSError.

#[export] Instance ascii_runtime : Runtime.
Proof.
  refine {| utf8_decode_ignore := ascii_decode_ignore;
            gunzip := stored_gunzip;
            upper_full := ascii_upper_full;
            open_error := nul_open_error |}.
  - intros bs Hbs. unfold ascii_decode_ignore.
    induction Hbs as [|b bs Hb _ IH]; [reflexivity|].
    cbn [map]. rewrite filter_cons_True by exact Hb. now rewrite IH.
  - reflexivity.
  - intros c Hc. unfold ascii_upper_full.
    now apply N.ltb_lt in Hc as ->.
  - intros file_path Hnul. unfold nul_open_error. now rewrite Hnul.
Defined.



(** ** The reader and the accumulator in the words of the specification

    The record reader groups the lines four by four and keeps, of each
    complete group, the trimmed second and fourth line; the accumulator
    folds one record into the state. The loop of [parse_fastq] is compared
    with them below. *)

Fixpoint read_records (lines : list (list N)) : list (list N * list N) :=
  match lines with
  | _ :: sequence_line :: _ :: quality_line :: rest =>
      (strip sequence_line, strip quality_line) :: read_records rest
  | _ => []
  end.

(** The tally of one upper-cased sequence added to a table. *)
Definition tally_base (m : gmap N Z) (base : N) : gmap N Z :=
  if char_in base (py "ATGC") then <[base := default 0 (m !! base) + 1]> m
  else m.

Definition tally (sequence_upper : list N) (m : gmap N Z) : gmap N Z :=
  fold_left tally_base sequence_upper m.

Definition ingest `{Runtime} (self : FASTQProcessor)
    (record : list N * list N) : FASTQProcessor :=
  let '(sequence, quality) := record in
  mkProcessor (sequences_count self + 1)
              (total_length self + len sequence)
              (sequence_lengths self ++ [len sequence])
              (quality_scores self ++ map (fun c => ord c - 33) quality)
              (tally (upper sequence) (base_counts self)).

(** [reset()]: the five assignments at the head of [parse_fastq]. *)
Definition reset (self : FASTQProcessor) : FASTQProcessor := init.

(** The decoded content of the file [parse_fastq] reads. *)
Definition decoded_content `{Runtime} (fs : filesystem) (file_path : list N)
  : result (list N) :=
  (if endswith file_path (py ".gz") then gzip_open fs else plain_open fs)
    file_path.

(** The number of times [base] occurs in [s]. *)
Definition occurrences (base : N) (s : list N) : Z :=
  len (filter (fun c => c = base) s).

(** ** Sample files

    The two-record file of the scenario of the specification (sequences
    ACGT and ACGTN, qualities !!!! and IIIII), the same file followed by two
    more lines, its archived form, a file with the single sequence AAAA, and
    an empty file. *)

Definition file_of_lines (ls : list string) : list byte :=
  flat_map (fun l => list_byte_of_string l ++ [x0a]) ls.

Definition two_records : list byte :=
  file_of_lines ["@r1"%string; "ACGT"%string; "+"%string; "!!!!"%string;
                 "@r2"%string; "ACGTN"%string; "+"%string; "IIIII"%string].

Definition poly_a : list byte :=
  file_of_lines ["@r1"%string; "AAAA"%string; "+"%string; "!!!!"%string].

Definition two_records_and_a_half : list byte :=
  two_records ++ file_of_lines ["@r3"%string; "AC"%string].

Definition sample_fs : filesystem := fun file_path =>
  if bool_decide (file_path = py "reads.fastq") then Some two_records
  else if bool_decide (file_path = py "reads.fastq.gz") then
    Some (x1f :: x8b :: two_records)
  else if bool_decide (file_path = py "cut.fastq") then
    Some two_records_and_a_half
  else if bool_decide (file_path = py "poly_a.fastq") then Some poly_a
  else if bool_decide (file_path = py "empty.fastq") then Some []
  else if bool_decide (file_path = py "empty.fastq.gz") then Some []
  else None.

Definition sample_lines : list (list N) :=
  readlines (ascii_decode_ignore two_records).

(** ** The caller, and the states of a processor *)

(** What [analyze_file] and [display_results] ask of the processor (lines
    424 and 450-452): one parse, then the three summaries in this order. *)
Definition analyze `{Runtime} (fs : filesystem) (file_path : list N)
  : Py (view basic_stats * view quality_stats * view (list base_line)) :=
  parse_fastq fs file_path ;;;
  basic_stats <- get_basic_stats ;;
  quality_stats <- get_quality_stats ;;
  composition_stats <- get_base_composition ;;
  py_ret (basic_stats, quality_stats, composition_stats).

(** The states of a processor between calls: the one [__init__] builds, the
    one a call of [parse_fastq] leaves (on any file, from any state, whether
    it returns or raises), and those the summaries leave. *)
Inductive reachable `{Runtime} : FASTQProcessor -> Prop :=
  | reach_init : reachable init
  | reach_parse_fastq fs file_path self :
      reachable (fst (parse_fastq fs file_path self))
  | reach_get_basic_stats self :
      reachable self -> reachable (fst (get_basic_stats self))
  | reach_get_quality_stats self :
      reachable self -> reachable (fst (get_quality_stats self))
  | reach_get_base_composition self :
      reachable self -> reachable (fst (get_base_composition self)).

(** What holds of every such state. *)
Record consistent (self : FASTQProcessor) : Prop := mkConsistent {
  cons_count : sequences_count self = len (sequence_lengths self);
  cons_total : total_length self = py_sum (sequence_lengths self);
  cons_keys : forall k v, base_counts self !! k = Some v ->
                char_in k (py "ATGC") = true /\ 0 <= v;
  cons_positive : base_counts self <> ∅ ->
                  exists k v, base_counts self !! k = Some v /\ 0 < v
}.

(** The part of the invariant that concerns [base_counts]. *)
Definition table_ok (m : gmap N Z) : Prop :=
  (forall k v, m !! k = Some v -> char_in k (py "ATGC") = true /\ 0 <= v)
  /\ (m <> ∅ -> exists k v, m !! k = Some v /\ 0 < v).

(** The table after a read of key [k]. *)
Definition touched (k : N) (m : gmap N Z) : gmap N Z :=
  match m !! k with
  | Some _ => m
  | None => <[k := 0]> m
  end.

(** The count the composition reports for a base, and the sum of the four. *)
Definition count_of (self : FASTQProcessor) (base : N) : Z :=
  default 0 (base_counts self !! base).

Definition four_counts (self : FASTQProcessor) : Z :=
  count_of self 65%N + count_of self 84%N + count_of self 71%N
  + count_of self 67%N.

(** A line of the composition with the percentage of line 157. *)
Definition percentage_line (base : N) (count total_bases : Z) : base_line :=
  mkLine base count
         (if total_bases >? 0
          then (inject_Z count / inject_Z total_bases * 100)%Q else 0%Q).

(** ** Vocabulary for the properties of whole files *)

(** A line of white space only. *)
Definition blank (s : list N) : Prop := Forall (fun c => is_space c = true) s.

(** The same text with its LF line ends written CR LF. *)
Definition to_crlf (s : list N) : list N :=
  flat_map (fun c => if (c =? LF)%N then [CR; LF] else [c]) s.

(** The trimmed sequence lengths, the scores and the upper-cased bases of a
    list of records, in the order of the records. *)
Definition lengths_of (records : list (list N * list N)) : list Z :=
  map (fun r => len (fst r)) records.

Definition scores_of (records : list (list N * list N)) : list Z :=
  flat_map (fun r => map (fun c => ord c - 33) (snd r)) records.

Definition bases_of `{Runtime} (records : list (list N * list N)) : list N :=
  flat_map (fun r => upper (fst r)) records.

(** More sample files: the two records with CR LF line ends, the two
    records under other identifier and separator lines, the two records
    without the last line end, four blank lines, a record without any of the
    four bases, and a plain file under an archive name. *)
Definition file_of_lines_crlf (ls : list string) : list byte :=
  flat_map (fun l => list_byte_of_string l ++ [x0d; x0a]) ls.

Definition two_records_crlf : list byte :=
  file_of_lines_crlf
    ["@r1"%string; "ACGT"%string; "+"%string; "!!!!"%string;
     "@r2"%string; "ACGTN"%string; "+"%string; "IIIII"%string].

Definition two_records_renamed : list byte :=
  file_of_lines ["read one"%string; "ACGT"%string; ""%string; "!!!!"%string;
                 ">r2"%string; "ACGTN"%string; "-"%string; "IIIII"%string].

Definition two_records_no_eol : list byte := removelast two_records.

Definition blank_lines : list byte :=
  file_of_lines [""%string; " "%string; ""%string; "  "%string].

Definition only_n : list byte :=
  file_of_lines ["@r1"%string; "NNNN"%string; "+"%string; "####"%string].

Definition more_fs : filesystem := fun file_path =>
  if bool_decide (file_path = py "crlf.fastq") then Some two_records_crlf
  else if bool_decide (file_path = py "renamed.fastq") then
    Some two_records_renamed
  else if bool_decide (file_path = py "no_eol.fastq") then
    Some two_records_no_eol
  else if bool_decide (file_path = py "blank.fastq") then Some blank_lines
  else if bool_decide (file_path = py "only_n.fastq") then Some only_n
  else if bool_decide (file_path = py "plain.gz") then Some two_records
  else sample_fs file_path.

(** ** The window: the class [FASTQAnalyzer]

    Of the window the model keeps what its handlers read and write: the
    processor, the selected file, whether the analyse button is enabled,
    the file label, the content of the three text areas, and the message
    boxes shown so far. Layout, colours and the background image are left
    out, and so is the event loop: [root.update()] and the message boxes
    are taken to run no other handler. A text area holds the pieces
    inserted since it was last emptied; a piece is what the inserted string
    is built from, not its characters. *)

Inductive text :=
  | LoadingText
  | BasicText (stats : view basic_stats) (file_size : Z) (file_name : list N)
  | QualityText (stats : view quality_stats)
  | CompositionText (stats : view (list base_line)).

Inductive dialog :=
  | ShowWarning
  | ShowError (e : exn).

Record FASTQAnalyzer := mkAnalyzer {
  processor : FASTQProcessor;
  current_file : option (list N);
  analyze_btn : bool;
  file_label : option (list N);
  basic_text : list text;
  quality_text : list text;
  composition_text : list text;
  dialogs : list dialog
}.

Definition Gui (A : Type) : Type :=
  FASTQAnalyzer -> FASTQAnalyzer * result A.

Definition gui_ret {A} (a : A) : Gui A := fun app => (app, inr a).

Definition gui_bind {A B} (m : Gui A) (k : A -> Gui B) : Gui B :=
  fun app =>
    match m app with
    | (app', inr a) => k a app'
    | (app', inl e) => (app', inl e)
    end.

(** [try: body except Exception as e: handler(e)] *)
Definition try_except {A} (body : Gui A) (handler : exn -> Gui A) : Gui A :=
  fun app =>
    match body app with
    | (app', inr a) => (app', inr a)
    | (app', inl e) => handler e app'
    end.

(** A call of a method of [self.processor]. *)
Definition call {A} (m : Py A) : Gui A :=
  fun app =>
    let '(p, r) := m (processor app) in
    (mkAnalyzer p (current_file app) (analyze_btn app) (file_label app)
                (basic_text app) (quality_text app) (composition_text app)
                (dialogs app), r).

Definition gui_lift {A} (r : result A) : Gui A := fun app => (app, r).

Definition set_texts (b q c : list text) : Gui unit :=
  fun app =>
    (mkAnalyzer (processor app) (current_file app) (analyze_btn app)
                (file_label app) b q c (dialogs app), inr tt).

Definition show (d : dialog) : Gui unit :=
  fun app =>
    (mkAnalyzer (processor app) (current_file app) (analyze_btn app)
                (file_label app) (basic_text app) (quality_text app)
                (composition_text app) (dialogs app ++ [d]), inr tt).

(** [os.path.getsize] *)
Definition getsize (fs : filesystem) (file_path : list N) : result Z :=
  match fs file_path with
  | Some raw => inr (len raw)
  | None => inl OSError
  end.

(** [FASTQAnalyzer.__init__] with [create_interface]: no file, the analyse
    button disabled, the label "файл не выбран", three empty text areas. *)
Definition new_window : FASTQAnalyzer :=
  mkAnalyzer init None false None [] [] [] [].

Section Window.
Context `{Runtime}.
Variable fs : filesystem.
Variable basename : list N -> list N.

(** [show_loading_message] (lines 435-445) *)
Definition show_loading_message : Gui unit :=
  set_texts [LoadingText] [LoadingText] [LoadingText].

(** [clear_results] (lines 472-477) *)
Definition clear_results : Gui unit := set_texts [] [] [].

(** [display_results] (lines 447-470). It runs with a file selected; with
    none Python raises from [os.path.getsize(None)], which is rendered
    here by the one error of [getsize]. *)
Definition display_results : Gui unit :=
  gui_bind (call get_basic_stats) (fun basic_stats =>
  gui_bind (call get_quality_stats) (fun quality_stats =>
  gui_bind (call get_base_composition) (fun composition_stats =>
  fun app =>
    match current_file app with
    | None => (app, inl OSError)
    | Some file_path =>
        gui_bind (gui_lift (getsize fs file_path)) (fun file_size =>
          set_texts [BasicText basic_stats file_size (basename file_path)]
                    [QualityText quality_stats]
                    [CompositionText composition_stats]) app
    end))).

(** [analyze_file] (lines 412-433) *)
Definition analyze_file : Gui unit :=
  fun app =>
    match current_file app with
    | None | Some [] => show ShowWarning app
    | Some file_path =>
        try_except
          (gui_bind show_loading_message (fun _ =>
           gui_bind (call (parse_fastq fs file_path)) (fun _ =>
           display_results)))
          (fun e => gui_bind (show (ShowError e)) (fun _ => clear_results))
          app
    end.

(** [select_file] (lines 388-410); [filename] is what the dialog returned,
    empty when it was cancelled. *)
Definition select_file (filename : list N) : Gui unit :=
  fun app =>
    match filename with
    | [] => (app, inr tt)
    | _ :: _ =>
        (mkAnalyzer (processor app) (Some filename) true
                    (Some (basename filename)) (basic_text app)
                    (quality_text app) (composition_text app) (dialogs app),
         inr tt)
    end.

(** A click on the analyse button: a disabled button runs no command. *)
Definition click_analyze : Gui unit :=
  fun app => if analyze_btn app then analyze_file app else (app, inr tt).

(** The states of the window: that of [__init__], then any sequence of
    file selections and clicks on the analyse button. *)
Inductive window_state : FASTQAnalyzer -> Prop :=
  | window_new : window_state new_window
  | window_select filename app :
      window_state app -> window_state (fst (select_file filename app))
  | window_click app :
      window_state app -> window_state (fst (click_analyze app)).

End Window.

(** [posixpath.basename]: what follows the last slash. *)
Fixpoint posix_basename (file_path : list N) : list N :=
  match file_path with
  | [] => []
  | c :: rest =>
      if existsb (N.eqb 47) rest then posix_basename rest
      else if (c =? 47)%N then rest else file_path
  end.

(** ** Binary floating point

    Where the code divides two integers or multiplies a double, Python
    keeps the binary64 number nearest to the exact result, a tie going to
    the even significand; [{x:.1f}] and [{x:.2f}] print the decimal with
    that many digits nearest to the double, a tie going to the even digit.
    Both are written out on rationals, for magnitudes below 2^1024. *)

(** The integer nearest to [a / b] for a positive [b], a tie going to the
    even one. *)
Definition round_ratio (a b : Z) : Z :=
  let f := a / b in
  match 2 * (a mod b) ?= b with
  | Lt => f
  | Gt => f + 1
  | Eq => if Z.even f then f else f + 1
  end.

Definition round_half_even (x : Q) : Z :=
  round_ratio (Qnum x) (Z.pos (Qden x)).

(** The integer part of the binary logarithm of [a / b], for positive [a]
    and [b]. *)
Definition floor_log2 (a b : Z) : Z :=
  let e0 := Z.log2 a - Z.log2 b in
  if (if 0 <=? e0 then 2 ^ e0 * b <=? a else b <=? 2 ^ (- e0) * a)
  then e0 else e0 - 1.

(** The double nearest to [q]: 53 significant bits, the exponent not below
    -1022 (under it the doubles keep the spacing 2^-1074). *)
Definition binary64 (q : Q) : Q :=
  if Qnum q =? 0 then 0%Q else
  let k := Z.max (floor_log2 (Z.abs (Qnum q)) (Z.pos (Qden q))) (-1022) - 52 in
  (inject_Z (round_half_even (q * 2 ^ (- k))) * 2 ^ k)%Q.

(** What [{x:.nf}] prints, counted in units of the last digit. *)
Definition fixed (digits : nat) (x : Q) : Z :=
  round_half_even (x * inject_Z (10 ^ Z.of_nat digits)).

(** The double that line 117 stores in [avg_length], and the tenths that
    line 121 prints for it. *)
Definition avg_length (report : basic_stats) : Q :=
  binary64 (bs_avg_length report).

Definition avg_length_text (report : basic_stats) : Z :=
  fixed 1 (avg_length report).

(** The double that line 134 stores in [avg_quality], and the hundredths
    that line 138 prints for it. *)
Definition avg_quality (report : quality_stats) : Q :=
  binary64 (qs_avg_quality report).






(** Three records with the sequences A, empty and empty: total length 1
    over 3 records. Four records with the sequences AA, A, A and A: total
    length 5 over 4 records. *)
Definition one_in_three : list byte :=
  file_of_lines ["@r1"%string; "A"%string; "+"%string; "!"%string;
                 "@r2"%string; ""%string; "+"%string; ""%string;
                 "@r3"%string; ""%string; "+"%string; ""%string].

Definition five_in_four : list byte :=
  file_of_lines ["@r1"%string; "AA"%string; "+"%string; "!!"%string;
                 "@r2"%string; "A"%string; "+"%string; "!"%string;
                 "@r3"%string; "A"%string; "+"%string; "!"%string;
                 "@r4"%string; "A"%string; "+"%string; "!"%string].

Definition float_fs : filesystem := fun file_path =>
  if bool_decide (file_path = py "thirds.fastq") then Some one_in_three
  else if bool_decide (file_path = py "quarters.fastq") then Some five_in_four
  else more_fs file_path.


(** * Properties *)

(** ** Rounding

    The double nearest to a non-negative rational [q] is within
    [q * 2^-53 + 2^-1075] of it, and the digits printed for a double are
    within half a unit of the last digit. *)

Lemma round_ratio_spec (a b : Z) :
  0 < b ->
  2 * (round_ratio a b * b - a) <= b /\ 2 * (a - round_ratio a b * b) <= b.
Proof.
  intros Hb. unfold round_ratio.
  pose proof (Z.div_mod a b ltac:(lia)) as Hdm.
  pose proof (Z.mod_pos_bound a b Hb) as Hr.
  destruct (Z.compare_spec (2 * (a mod b)) b) as [He|Hl|Hg];
    [destruct (Z.even (a / b))| |]; nia.
Qed.

Lemma round_half_even_spec (x : Q) :
  (inject_Z (round_half_even x) - x <= 1 # 2
   /\ x - inject_Z (round_half_even x) <= 1 # 2)%Q.
Proof.
  destruct x as [n d]. unfold round_half_even. cbn [Qnum Qden].
  destruct (round_ratio_spec n (Z.pos d) ltac:(lia)) as [H1 H2].
  unfold Qle, Qminus, Qplus, Qopp, inject_Z. cbn [Qnum Qden].
  rewrite !Pos2Z.inj_mul. split; nia.
Qed.

Lemma floor_log2_le (a : Z) (d : positive) :
  0 < a -> (2 ^ floor_log2 a (Z.pos d) <= a # d)%Q.
Proof.
  intros Ha. unfold floor_log2.
  set (b := Z.pos d). assert (Hb : 0 < b) by (subst b; lia).
  set (e0 := Z.log2 a - Z.log2 b).
  destruct (Z.log2_spec a Ha) as [Ha1 Ha2].
  destruct (Z.log2_spec b Hb) as [Hb1 Hb2].
  pose proof (Z.log2_nonneg a) as Hla. pose proof (Z.log2_nonneg b) as Hlb.
  assert (Hpow : forall e : Z,
            (if 0 <=? e then 2 ^ e * b <= a else b <= 2 ^ (- e) * a) ->
            (2 ^ e <= a # d)%Q).
  { intros e. destruct (Z.leb_spec 0 e) as [He|He]; intros Hle.
    - rewrite <- (Zpower_Qpower 2 e He).
      unfold Qle, inject_Z. cbn [Qnum Qden]. fold b. lia.
    - replace e with (- (- e)) by lia. rewrite Qpower_opp.
      rewrite <- (Zpower_Qpower 2 (- e)) by lia.
      assert (Hp : 0 < 2 ^ (- e)) by (apply Z.pow_pos_nonneg; lia).
      destruct (2 ^ (- e)) as [|p|p] eqn:Hpe; try lia.
      unfold Qle, Qinv, inject_Z. cbn [Qnum Qden]. fold b. lia. }
  destruct (if 0 <=? e0 then 2 ^ e0 * b <=? a else b <=? 2 ^ (- e0) * a) eqn:Ht.
  - apply Hpow. destruct (0 <=? e0); apply Z.leb_le in Ht; exact Ht.
  - apply Hpow. destruct (Z.leb_spec 0 (e0 - 1)) as [He|He].
    + assert (2 ^ (e0 - 1) * 2 ^ Z.succ (Z.log2 b) = 2 ^ Z.log2 a).
      { rewrite <- Z.pow_add_r by lia. f_equal. subst e0. lia. }
      assert (0 < 2 ^ (e0 - 1)) by (apply Z.pow_pos_nonneg; lia).
      nia.
    + assert (2 ^ (- (e0 - 1)) * 2 ^ Z.log2 a = 2 ^ Z.succ (Z.log2 b)).
      { rewrite <- Z.pow_add_r by lia. f_equal. subst e0. lia. }
      assert (0 < 2 ^ (- (e0 - 1))) by (apply Z.pow_pos_nonneg; lia).
      nia.
Qed.

Lemma half_ulp_bound (q : Q) (e : Z) :
  (0 <= q)%Q -> (-1022 <= e -> (2 ^ e <= q)%Q) ->
  ((1 # 2) * 2 ^ (Z.max e (-1022) - 52)
   <= q * 2 ^ (-53) + 2 ^ (-1075))%Q.
Proof.
  intros Hq He.
  assert (Hu : (0 < 2 ^ (-53))%Q) by (apply Qpower_0_lt; reflexivity).
  assert (Hn : (0 < 2 ^ (-1075))%Q) by (apply Qpower_0_lt; reflexivity).
  destruct (Z.max_spec e (-1022)) as [[Hlt ->]|[Hge ->]].
  - assert (Heq : ((1 # 2) * 2 ^ (-1022 - 52) == 2 ^ (-1075))%Q).
    { change (-1022 - 52) with (-1 + -1073). change (-1075) with (-2 + -1073).
      rewrite !Qpower_plus by discriminate.
      change (2 ^ (-1))%Q with (1 # 2)%Q. change (2 ^ (-2))%Q with (1 # 4)%Q.
      ring. }
    rewrite Heq.
    assert (0 <= q * 2 ^ (-53))%Q by (apply Qmult_le_0_compat; [exact Hq|now apply Qlt_le_weak]).
    lra.
  - assert (Heq : ((1 # 2) * 2 ^ (e - 52) == 2 ^ e * 2 ^ (-53))%Q).
    { replace (e - 52) with (e + -52) by lia.
      rewrite Qpower_plus by discriminate.
      change (-53) with (-1 + -52). rewrite Qpower_plus by discriminate.
      change (2 ^ (-1))%Q with (1 # 2)%Q. ring. }
    rewrite Heq.
    assert (2 ^ e * 2 ^ (-53) <= q * 2 ^ (-53))%Q.
    { apply Qmult_le_compat_r; [apply He; lia|now apply Qlt_le_weak]. }
    lra.
Qed.

(** Rounding to the nearest double moves a non-negative rational by at
    most half a unit in the last place: 2^-53 of it in the normal range,
    2^-1075 below. *)
Lemma binary64_error (q : Q) :
  (0 <= q)%Q ->
  (q - (q * 2 ^ (-53) + 2 ^ (-1075)) <= binary64 q
   /\ binary64 q <= q + (q * 2 ^ (-53) + 2 ^ (-1075)))%Q.
Proof.
  intros Hq.
  assert (Hu : (0 < 2 ^ (-53))%Q) by (apply Qpower_0_lt; reflexivity).
  assert (Hn : (0 < 2 ^ (-1075))%Q) by (apply Qpower_0_lt; reflexivity).
  assert (Hqu : (0 <= q * 2 ^ (-53))%Q)
    by (apply Qmult_le_0_compat; [exact Hq|now apply Qlt_le_weak]).
  unfold binary64.
  destruct (Z.eqb_spec (Qnum q) 0) as [Hz|Hnz].
  - assert (Hq0 : (q == 0)%Q) by (destruct q; cbn in Hz; subst; reflexivity).
    rewrite Hq0 in *. lra.
  - assert (Hpos : 0 < Qnum q).
    { destruct q as [n d]. unfold Qle in Hq. cbn in *. lia. }
    rewrite (Z.abs_eq (Qnum q)) by lia.
    set (e := floor_log2 (Qnum q) (Z.pos (Qden q))).
    set (k := Z.max e (-1022) - 52).
    assert (HP : (0 < 2 ^ k)%Q) by (apply Qpower_0_lt; reflexivity).
    assert (Hx : (q * 2 ^ (- k) * 2 ^ k == q)%Q).
    { rewrite Qpower_opp. field. apply Qpower_not_0. discriminate. }
    destruct (round_half_even_spec (q * 2 ^ (- k))) as [H1 H2].
    set (m := inject_Z (round_half_even (q * 2 ^ (- k)))) in *.
    assert (Hhalf : ((1 # 2) * 2 ^ k <= q * 2 ^ (-53) + 2 ^ (-1075))%Q).
    { apply half_ulp_bound; [exact Hq|]. intros _.
      subst e. destruct q as [n d]. cbn [Qnum Qden] in *.
      now apply floor_log2_le. }
    assert (HA : ((m - q * 2 ^ (- k)) * 2 ^ k <= (1 # 2) * 2 ^ k)%Q)
      by (apply Qmult_le_compat_r; [exact H1|now apply Qlt_le_weak]).
    assert (HB : ((q * 2 ^ (- k) - m) * 2 ^ k <= (1 # 2) * 2 ^ k)%Q)
      by (apply Qmult_le_compat_r; [exact H2|now apply Qlt_le_weak]).
    assert (HA' : (m * 2 ^ k - q <= (1 # 2) * 2 ^ k)%Q).
    { assert (E : ((m - q * 2 ^ (- k)) * 2 ^ k
                     == m * 2 ^ k - q * 2 ^ (- k) * 2 ^ k)%Q) by ring.
        rewrite E, Hx in HA. exact HA. }
    assert (HB' : (q - m * 2 ^ k <= (1 # 2) * 2 ^ k)%Q).
    { assert (E : ((q * 2 ^ (- k) - m) * 2 ^ k
                     == q * 2 ^ (- k) * 2 ^ k - m * 2 ^ k)%Q) by ring.
        rewrite E, Hx in HB. exact HB. }
    clearbody m. generalize dependent (m * 2 ^ k)%Q. intros f ? ?.
    generalize dependent (2 ^ k)%Q. intros. lra.
Qed.




(** The digits printed are within half a unit of the last digit. *)
Lemma fixed_error (digits : nat) (x : Q) :
  (inject_Z (fixed digits x) - x * inject_Z (10 ^ Z.of_nat digits) <= 1 # 2
   /\ x * inject_Z (10 ^ Z.of_nat digits) - inject_Z (fixed digits x)
      <= 1 # 2)%Q.
Proof. apply round_half_even_spec. Qed.



(** ** The monad *)

Lemma py_bind_ret {A B} (a : A) (k : A -> Py B) self :
  py_bind (py_ret a) k self = k a self.
Proof. reflexivity. Qed.

Lemma py_bind_modify {B} f (k : unit -> Py B) self :
  py_bind (modify f) k self = k tt (f self).
Proof. reflexivity. Qed.

Lemma py_bind_lift_inr {A B} (a : A) (k : A -> Py B) self :
  py_bind (lift (inr a)) k self = k a self.
Proof. reflexivity. Qed.

Lemma py_bind_lift_inl {A B} (e : exn) (k : A -> Py B) self :
  py_bind (lift (inl e)) k self = (self, inl e).
Proof. reflexivity. Qed.

Lemma py_bind_get {B} (k : FASTQProcessor -> Py B) self :
  py_bind get k self = k self self.
Proof. reflexivity. Qed.

Lemma for_each_app {A} (xs ys : list A) body self :
  for_each (xs ++ ys) body self =
  py_bind (for_each xs body) (fun _ => for_each ys body) self.
Proof.
  revert self. induction xs as [|x xs IH]; intros self; cbn.
  - reflexivity.
  - unfold py_bind in *. destruct (body x self) as [self' [e|[]]].
    + reflexivity.
    + apply IH.
Qed.

(** ** Lists and lengths *)

Lemma len_nonneg {A} (l : list A) : 0 <= len l.
Proof. unfold len. lia. Qed.

Lemma len_app {A} (l k : list A) : len (l ++ k) = len l + len k.
Proof. unfold len. rewrite length_app. lia. Qed.

Lemma py_sum_from (l : list Z) (a : Z) :
  fold_left Z.add l a = a + py_sum l.
Proof.
  unfold py_sum. revert a. induction l as [|x l IH]; intros a; cbn.
  - lia.
  - rewrite (IH (a + x)), (IH (0 + x)). lia.
Qed.

Lemma py_sum_cons (x : Z) (l : list Z) : py_sum (x :: l) = x + py_sum l.
Proof. unfold py_sum at 1. cbn. apply py_sum_from. Qed.

Lemma py_sum_app (l k : list Z) : py_sum (l ++ k) = py_sum l + py_sum k.
Proof.
  induction l as [|x l IH].
  - reflexivity.
  - change ((x :: l) ++ k) with (x :: (l ++ k)).
    rewrite !py_sum_cons, IH. lia.
Qed.

Lemma getitem_lookup {A} (l : list A) (i : nat) (a : A) :
  l !! i = Some a -> getitem l (Z.of_nat i) = inr a.
Proof.
  intros Hl. pose proof (lookup_lt_Some _ _ _ Hl) as Hlt.
  unfold getitem, len.
  destruct (Z.ltb_spec (Z.of_nat i) 0) as [Hneg|_]; [lia|].
  destruct (Z.leb_spec 0 (Z.of_nat i)) as [_|?]; [|lia].
  destruct (Z.ltb_spec (Z.of_nat i) (Z.of_nat (length l))) as [_|?]; [|lia].
  cbn. now rewrite Nat2Z.id, Hl.
Qed.

(** ** The helpers and the loop of [parse_fastq] against the accumulator *)

Section Run.
Context `{Runtime}.

Lemma count_loop_run (u : list N) self :
  for_each u (fun base =>
    if char_in base (py "ATGC") then
      v <- base_counts_getitem base ;;
      base_counts_setitem base (v + 1)
    else py_ret tt) self
  = (set_base_counts (tally u (base_counts self)) self, inr tt).
Proof.
  revert self. induction u as [|c u IH]; intros self.
  - destruct self; reflexivity.
  - cbn [for_each]. unfold py_bind at 1.
    unfold tally. cbn [fold_left]. fold (tally u).
    unfold tally_base at 2.
    destruct (char_in c (py "ATGC")) eqn:Hc.
    + unfold py_bind, base_counts_getitem, base_counts_setitem, modify.
      destruct (base_counts self !! c) as [v|] eqn:Hv.
      * rewrite IH. destruct self; reflexivity.
      * rewrite IH. destruct self; cbn. now rewrite insert_insert_eq.
    + unfold py_ret. rewrite IH. reflexivity.
Qed.

Lemma _count_bases_run (sequence : list N) self :
  _count_bases sequence self
  = (set_base_counts (tally (upper sequence) (base_counts self)) self,
     inr tt).
Proof. apply count_loop_run. Qed.

Lemma _analyze_quality_run (quality_string : list N) self :
  _analyze_quality quality_string self
  = (set_quality_scores
       (quality_scores self ++ map (fun c => ord c - 33) quality_string)
       self, inr tt).
Proof. reflexivity. Qed.

(** One pass through the loop body at a complete block. *)
Lemma parse_block_complete (lines : list (list N)) (k : nat) l1 l3 self :
  lines !! (4 * k + 1)%nat = Some l1 ->
  lines !! (4 * k + 3)%nat = Some l3 ->
  parse_block lines (0 + Z.of_nat k * 4) self
  = (ingest self (strip l1, strip l3), inr tt).
Proof.
  intros H1 H3. unfold parse_block.
  pose proof (lookup_lt_Some _ _ _ H3) as Hlt.
  destruct (Z.ltb_spec (0 + Z.of_nat k * 4 + 3) (len lines)) as [_|Hge];
    [|unfold len in Hge; lia].
  replace (0 + Z.of_nat k * 4 + 1) with (Z.of_nat (4 * k + 1)) by lia.
  replace (0 + Z.of_nat k * 4 + 3) with (Z.of_nat (4 * k + 3)) by lia.
  rewrite (getitem_lookup _ _ _ H1), py_bind_lift_inr.
  rewrite (getitem_lookup _ _ _ H3), py_bind_lift_inr.
  rewrite !py_bind_modify.
  unfold py_bind. rewrite _count_bases_run, _analyze_quality_run.
  destruct self; reflexivity.
Qed.

(** The loop body where fewer than four lines remain. *)
Lemma parse_block_partial (lines : list (list N)) (k : nat) self :
  (length lines <= 4 * k + 3)%nat ->
  parse_block lines (0 + Z.of_nat k * 4) self = (self, inr tt).
Proof.
  intros Hle. unfold parse_block.
  destruct (Z.ltb_spec (0 + Z.of_nat k * 4 + 3) (len lines)) as [Hlt|_];
    [unfold len in Hlt; lia|reflexivity].
Qed.

Lemma read_records_short (lines : list (list N)) :
  (length lines < 4)%nat -> read_records lines = [].
Proof.
  intros Hlt. destruct lines as [|? [|? [|? [|? ?]]]]; try reflexivity.
  cbn in Hlt. lia.
Qed.

Lemma parse_loop_run (lines : list (list N)) (n a : nat) self :
  (length (drop (4 * a) lines) <= 4 * n + 3)%nat ->
  for_each (map (fun k : nat => 0 + Z.of_nat k * 4) (seq a n))
           (parse_block lines) self
  = (fold_left ingest (read_records (drop (4 * a) lines)) self, inr tt).
Proof.
  revert a self. induction n as [|n IH]; intros a self Hlen.
  - rewrite read_records_short by lia. reflexivity.
  - cbn [seq map for_each]. unfold py_bind.
    destruct (drop (4 * a) lines) as [|l0 [|l1 [|l2 [|l3 rest]]]] eqn:Hd.
    1-4: rewrite parse_block_partial
      by (apply (f_equal length) in Hd; rewrite length_drop in Hd;
          cbn in Hd; lia);
      rewrite IH
      by (apply (f_equal length) in Hd; rewrite !length_drop in *;
          cbn in Hd; lia);
      rewrite read_records_short
      by (apply (f_equal length) in Hd; rewrite !length_drop in *;
          cbn in Hd; lia);
      reflexivity.
    assert (Hrest : drop (4 * S a) lines = rest).
    { replace (4 * S a)%nat with (4 * a + 4)%nat by lia.
      rewrite <- drop_drop, Hd. reflexivity. }
    assert (H1 : lines !! (4 * a + 1)%nat = Some l1).
    { rewrite <- (lookup_drop lines (4 * a) 1), Hd. reflexivity. }
    assert (H3 : lines !! (4 * a + 3)%nat = Some l3).
    { rewrite <- (lookup_drop lines (4 * a) 3), Hd. reflexivity. }
    rewrite (parse_block_complete _ _ _ _ _ H1 H3).
    rewrite IH by (rewrite Hrest; cbn in Hlen; lia).
    rewrite Hrest. reflexivity.
Qed.

Lemma range_len_4 (n : nat) :
  (n <= 4 * Z.to_nat (range_len 0 (Z.of_nat n) 4) + 3)%nat.
Proof.
  unfold range_len.
  destruct (Z.ltb_spec 0 (Z.of_nat n)) as [Hpos|Hz]; [|lia].
  pose proof (Z.div_mod (Z.of_nat n - 0 - 1) 4 ltac:(lia)) as Hdm.
  pose proof (Z.mod_pos_bound (Z.of_nat n - 0 - 1) 4 ltac:(lia)) as Hb.
  assert (0 <= (Z.of_nat n - 0 - 1) / 4)
    by (apply Z.div_pos; lia).
  lia.
Qed.

(** The loop of [parse_fastq] folds the records of the reader into the
    accumulator, and raises nothing. *)
Lemma parse_lines_run (lines : list (list N)) self :
  parse_lines lines self
  = (fold_left ingest (read_records lines) self, inr tt).
Proof.
  unfold parse_lines, py_range, len.
  rewrite parse_loop_run.
  - reflexivity.
  - cbn [Nat.mul drop]. apply range_len_4.
Qed.

Lemma parse_fastq_run (fs : filesystem) (file_path : list N) self :
  parse_fastq fs file_path self
  = match decoded_content fs file_path with
    | inr content =>
        (fold_left ingest (read_records (readlines content)) init, inr tt)
    | inl e => (init, inl e)
    end.
Proof.
  unfold parse_fastq. rewrite !py_bind_modify.
  unfold decoded_content.
  destruct ((if endswith file_path (py ".gz") then gzip_open fs
             else plain_open fs) file_path) as [e|content].
  - reflexivity.
  - rewrite py_bind_lift_inr. apply parse_lines_run.
Qed.

End Run.

(** ** Framing: complete blocks and the trailing lines *)

Section Framing.
Context `{Runtime}.

Lemma read_records_app (n : nat) (blocks trailing : list (list N)) :
  length blocks = (4 * n)%nat ->
  read_records (blocks ++ trailing)
  = read_records blocks ++ read_records trailing.
Proof.
  revert blocks. induction n as [|n IH]; intros blocks Hlen.
  - destruct blocks; [reflexivity|discriminate].
  - destruct blocks as [|l0 [|l1 [|l2 [|l3 rest]]]]; cbn in Hlen; try lia.
    cbn [app read_records]. rewrite IH by lia. reflexivity.
Qed.

Lemma read_records_length (n : nat) (blocks : list (list N)) :
  length blocks = (4 * n)%nat -> length (read_records blocks) = n.
Proof.
  revert blocks. induction n as [|n IH]; intros blocks Hlen.
  - destruct blocks; [reflexivity|discriminate].
  - destruct blocks as [|l0 [|l1 [|l2 [|l3 rest]]]]; cbn in Hlen; try lia.
    cbn [read_records length]. rewrite IH by lia. reflexivity.
Qed.

Lemma read_records_trailing (n : nat) (blocks trailing : list (list N)) :
  length blocks = (4 * n)%nat -> (length trailing < 4)%nat ->
  read_records (blocks ++ trailing) = read_records blocks.
Proof.
  intros Hb Ht. rewrite (read_records_app n) by exact Hb.
  rewrite (read_records_short trailing) by exact Ht.
  apply app_nil_r.
Qed.

Lemma ingest_all_count (records : list (list N * list N)) self :
  sequences_count (fold_left ingest records self)
  = sequences_count self + len records.
Proof.
  revert self. induction records as [|[s q] records IH]; intros self.
  - unfold len. cbn. lia.
  - cbn [fold_left]. rewrite IH. unfold len. cbn [ingest sequences_count length].
    lia.
Qed.

End Framing.

Section Framing_claims.
Context `{Runtime}.
Variable fs : filesystem.

(** C1. When the lines of the decoded file are [n] complete blocks of four
    lines followed by fewer than four more lines, [parse_fastq] returns
    normally, [sequences_count] is [n], and the final state is the one the
    loop reaches on the complete blocks alone: the trailing lines add
    nothing to any field. *)
Theorem parse_fastq_complete_blocks
    (file_path content : list N) (blocks trailing : list (list N))
    (n : nat) self :
  decoded_content fs file_path = inr content ->
  readlines content = blocks ++ trailing ->
  length blocks = (4 * n)%nat ->
  (length trailing < 4)%nat ->
  snd (parse_fastq fs file_path self) = inr tt
  /\ sequences_count (fst (parse_fastq fs file_path self)) = Z.of_nat n
  /\ fst (parse_fastq fs file_path self) = fst (parse_lines blocks init).
Proof.
  intros Hc Hl Hb Ht.
  rewrite parse_fastq_run, Hc, Hl, parse_lines_run.
  rewrite (read_records_trailing n) by assumption.
  cbn [fst snd]. repeat split.
  rewrite ingest_all_count. unfold len.
  rewrite (read_records_length n) by assumption. cbn. lia.
Qed.

End Framing_claims.

Lemma parse_fastq_complete_blocks_witness :
  snd (parse_fastq sample_fs (py "cut.fastq") init) = inr tt
  /\ sequences_count (fst (parse_fastq sample_fs (py "cut.fastq") init)) = 2
  /\ fst (parse_fastq sample_fs (py "cut.fastq") init)
     = fst (parse_lines
              (take 8 (readlines (ascii_decode_ignore two_records_and_a_half)))
              init).
Proof.
  apply (@parse_fastq_complete_blocks ascii_runtime sample_fs
           (py "cut.fastq")
           (ascii_decode_ignore two_records_and_a_half)
           (take 8 (readlines (ascii_decode_ignore two_records_and_a_half)))
           (drop 8 (readlines (ascii_decode_ignore two_records_and_a_half)))
           2%nat init).
  - vm_compute. reflexivity.
  - vm_compute. reflexivity.
  - vm_compute. reflexivity.
  - vm_compute. lia.
Defined.

(** ** The base tally *)

Lemma char_in_ATGC (c : N) :
  char_in c (py "ATGC") = true
  <-> c = 65%N \/ c = 84%N \/ c = 71%N \/ c = 67%N.
Proof.
  unfold char_in, py. cbn.
  rewrite !orb_true_iff, !N.eqb_eq. intuition discriminate.
Qed.

Lemma occurrences_cons (base c : N) (s : list N) :
  occurrences base (c :: s)
  = (if decide (c = base) then 1 else 0) + occurrences base s.
Proof.
  unfold occurrences, len. destruct (decide (c = base)) as [Heq|Hne].
  - rewrite filter_cons_True by exact Heq. cbn [length]. lia.
  - rewrite filter_cons_False by exact Hne. lia.
Qed.

Lemma tally_counted (u : list N) (m : gmap N Z) (base : N) :
  char_in base (py "ATGC") = true ->
  default 0 (tally u m !! base)
  = default 0 (m !! base) + occurrences base u.
Proof.
  intros Hb. revert m. induction u as [|c u IH]; intros m.
  - unfold occurrences, len. cbn. lia.
  - unfold tally. cbn [fold_left]. fold (tally u (tally_base m c)).
    rewrite IH, occurrences_cons. unfold tally_base.
    destruct (decide (c = base)) as [->|Hne].
    + rewrite Hb, lookup_insert_eq. cbn. lia.
    + destruct (char_in c (py "ATGC")); [|lia].
      rewrite lookup_insert_ne by exact Hne. lia.
Qed.


(** A character outside A, T, G, C leaves the table as it is. *)
Lemma tally_base_other (m : gmap N Z) (c : N) :
  char_in c (py "ATGC") = false -> tally_base m c = m.
Proof. intros Hc. unfold tally_base. now rewrite Hc. Qed.

(** Every character is either one of the four bases or untallied. *)
Lemma len_tallied_untallied (u : list N) :
  len u
  = occurrences 65%N u + occurrences 84%N u + occurrences 71%N u
    + occurrences 67%N u
    + len (filter (fun c => char_in c (py "ATGC") = false) u).
Proof.
  induction u as [|c u IH].
  - reflexivity.
  - rewrite !occurrences_cons.
    destruct (char_in c (py "ATGC")) eqn:Hc.
    + rewrite filter_cons_False by congruence.
      apply char_in_ATGC in Hc.
      unfold len in *. cbn [length].
      repeat destruct (decide _); lia.
    + rewrite filter_cons_True by exact Hc.
      assert (Hn : ~ (c = 65%N \/ c = 84%N \/ c = 71%N \/ c = 67%N)).
      { rewrite <- char_in_ATGC. congruence. }
      unfold len in *. cbn [length].
      repeat destruct (decide _); try lia; exfalso; apply Hn; auto.
Qed.

Section Tally_claims.
Context `{Runtime}.

Lemma upper_ascii_length (s : list N) :
  Forall (fun c => (c < 128)%N) s -> length (upper s) = length s.
Proof.
  unfold upper. induction 1 as [|c s Hc _ IH]; [reflexivity|].
  cbn [flat_map]. rewrite length_app, (upper_full_ascii c Hc), IH.
  reflexivity.
Qed.


(** C3. At a complete block, with [q] the trimmed quality line, the
    scores [ord c - 33] of the characters of [q] are appended to
    [quality_scores] in order and unchanged, whatever their sign or size;
    the mark [!] gives 0 and the letter [I] gives 40. *)
Theorem parse_block_quality (lines : list (list N)) (k : nat)
    (sequence_line quality_line : list N) self :
  lines !! (4 * k + 1)%nat = Some sequence_line ->
  lines !! (4 * k + 3)%nat = Some quality_line ->
  let self' := fst (parse_block lines (0 + Z.of_nat k * 4) self) in
  let q := strip quality_line in
  quality_scores self'
  = quality_scores self ++ map (fun c => ord c - 33) q
  /\ (forall (i : nat) (c : N), q !! i = Some c ->
        quality_scores self' !! (length (quality_scores self) + i)%nat
        = Some (ord c - 33))
  /\ quality_scores (fst (_analyze_quality (py "!I") init)) = [0; 40]
  /\ quality_scores (fst (_analyze_quality [1%N; 32%N; 1114111%N] init))
     = [-32; -1; 1114078].
Proof.
  intros H1 H3. cbv zeta.
  rewrite (parse_block_complete _ _ _ _ _ H1 H3). cbn [fst ingest].
  cbn [quality_scores].
  split; [reflexivity|split; [|split; reflexivity]].
  intros i c Hi.
  rewrite lookup_app_r by lia.
  replace (length (quality_scores self) + i - length (quality_scores self))%nat
    with i by lia.
  rewrite list_lookup_fmap, Hi. reflexivity.
Qed.

End Tally_claims.

(** ** The invariant of the accumulator *)

Lemma init_consistent : consistent init.
Proof.
  split; cbn; try reflexivity.
  - intros k v Hk. rewrite lookup_empty in Hk. discriminate.
  - intros Hne. now destruct Hne.
Qed.

Lemma insert_nonempty (m : gmap N Z) (k : N) (v : Z) : <[k := v]> m <> ∅.
Proof.
  intros Hm. apply (f_equal (fun m' => m' !! k)) in Hm.
  rewrite lookup_insert_eq, lookup_empty in Hm. discriminate.
Qed.

Lemma tally_base_ok (m : gmap N Z) (c : N) :
  table_ok m -> table_ok (tally_base m c).
Proof.
  intros [Hkeys Hpos]. unfold tally_base.
  destruct (char_in c (py "ATGC")) eqn:Hc; [|now split].
  assert (Hv : 0 <= default 0 (m !! c)).
  { destruct (m !! c) as [v|] eqn:Hm; cbn; [|lia]. now apply (Hkeys c v). }
  split.
  - intros k v. destruct (decide (c = k)) as [->|Hne].
    + rewrite lookup_insert_eq. intros [= <-]. split; [exact Hc|lia].
    + rewrite lookup_insert_ne by exact Hne. apply Hkeys.
  - intros _. exists c, (default 0 (m !! c) + 1).
    rewrite lookup_insert_eq. split; [reflexivity|lia].
Qed.

Lemma tally_ok (u : list N) (m : gmap N Z) :
  table_ok m -> table_ok (tally u m).
Proof.
  revert m. induction u as [|c u IH]; intros m Hm; [exact Hm|].
  unfold tally. cbn [fold_left]. apply IH. now apply tally_base_ok.
Qed.

Lemma touched_ok (k : N) (m : gmap N Z) :
  char_in k (py "ATGC") = true -> m <> ∅ -> table_ok m ->
  table_ok (touched k m).
Proof.
  intros Hk Hne [Hkeys Hpos]. unfold touched.
  destruct (m !! k) as [v|] eqn:Hm; [now split|].
  split.
  - intros j v. destruct (decide (k = j)) as [->|Hkj].
    + rewrite lookup_insert_eq. intros [= <-]. split; [exact Hk|lia].
    + rewrite lookup_insert_ne by exact Hkj. apply Hkeys.
  - intros _. destruct (Hpos Hne) as (j & v & Hj & Hv).
    exists j, v. split; [|exact Hv].
    rewrite lookup_insert_ne; [exact Hj|]. intros ->. congruence.
Qed.

Lemma touched_nonempty (k : N) (m : gmap N Z) : m <> ∅ -> touched k m <> ∅.
Proof.
  intros Hne. unfold touched. destruct (m !! k); [exact Hne|].
  apply insert_nonempty.
Qed.

Section Invariant.
Context `{Runtime}.

Lemma ingest_consistent self (record : list N * list N) :
  consistent self -> consistent (ingest self record).
Proof.
  intros [Hc Ht Hk Hp]. destruct record as [s q].
  destruct (tally_ok (upper s) (base_counts self) (conj Hk Hp))
    as [Hk' Hp'].
  split; cbn [ingest sequences_count total_length sequence_lengths
              base_counts].
  - rewrite len_app, Hc. reflexivity.
  - rewrite py_sum_app, Ht. unfold py_sum at 3. cbn. lia.
  - exact Hk'.
  - exact Hp'.
Qed.

Lemma ingest_all_consistent (records : list (list N * list N)) self :
  consistent self -> consistent (fold_left ingest records self).
Proof.
  revert self. induction records as [|r records IH]; intros self Hs.
  - exact Hs.
  - cbn [fold_left]. apply IH. now apply ingest_consistent.
Qed.

(** One pass through the loop body, at any index: nothing happens, an
    exception leaves the object as it was, or one record is ingested. *)
Lemma parse_block_cases (lines : list (list N)) (i : Z) self :
  parse_block lines i self = (self, inr tt)
  \/ (exists e, parse_block lines i self = (self, inl e))
  \/ (exists record,
        parse_block lines i self = (ingest self record, inr tt)).
Proof.
  unfold parse_block.
  destruct (i + 3 <? len lines); [|now left].
  destruct (getitem lines (i + 1)) as [e|l1].
  { right; left. exists e. reflexivity. }
  rewrite py_bind_lift_inr.
  destruct (getitem lines (i + 3)) as [e|l3].
  { right; left. exists e. reflexivity. }
  rewrite py_bind_lift_inr. right; right.
  exists (strip l1, strip l3).
  rewrite !py_bind_modify.
  unfold py_bind. rewrite _count_bases_run, _analyze_quality_run.
  destruct self; reflexivity.
Qed.

Lemma parse_blocks_consistent (lines : list (list N)) (indices : list Z)
    self :
  consistent self ->
  consistent (fst (for_each indices (parse_block lines) self)).
Proof.
  revert self. induction indices as [|i indices IH]; intros self Hs.
  - exact Hs.
  - cbn [for_each]. unfold py_bind.
    destruct (parse_block_cases lines i self)
      as [-> | [[e ->] | [record ->]]].
    + now apply IH.
    + exact Hs.
    + apply IH. now apply ingest_consistent.
Qed.

Lemma parse_fastq_consistent (fs : filesystem) (file_path : list N) self :
  consistent (fst (parse_fastq fs file_path self)).
Proof.
  rewrite parse_fastq_run.
  destruct (decoded_content fs file_path) as [e|content]; cbn [fst].
  - apply init_consistent.
  - apply ingest_all_consistent, init_consistent.
Qed.

End Invariant.

(** ** The summary methods *)

Lemma fold_min_spec (l : list Z) (x : Z) :
  (fold_left Z.min l x = x \/ In (fold_left Z.min l x) l)
  /\ fold_left Z.min l x <= x
  /\ (forall y, In y l -> fold_left Z.min l x <= y).
Proof.
  revert x. induction l as [|a l IH]; intros x; cbn [fold_left In].
  - split; [now left|]. split; [lia|]. intros y [].
  - destruct (IH (Z.min x a)) as (Hin & Hle & Hall).
    split; [|split].
    + destruct Hin as [Heq|Hin]; [|now right; right].
      rewrite Heq. destruct (Z.min_spec x a) as [[_ ->]|[_ ->]]; auto.
    + lia.
    + intros y [<-|Hy]; [lia|now apply Hall].
Qed.

Lemma fold_max_spec (l : list Z) (x : Z) :
  (fold_left Z.max l x = x \/ In (fold_left Z.max l x) l)
  /\ x <= fold_left Z.max l x
  /\ (forall y, In y l -> y <= fold_left Z.max l x).
Proof.
  revert x. induction l as [|a l IH]; intros x; cbn [fold_left In].
  - split; [now left|]. split; [lia|]. intros y [].
  - destruct (IH (Z.max x a)) as (Hin & Hle & Hall).
    split; [|split].
    + destruct Hin as [Heq|Hin]; [|now right; right].
      rewrite Heq. destruct (Z.max_spec x a) as [[_ ->]|[_ ->]]; auto.
    + lia.
    + intros y [<-|Hy]; [lia|now apply Hall].
Qed.

Lemma py_min_spec (l : list Z) (m : Z) :
  py_min l = inr m -> In m l /\ (forall y, In y l -> m <= y).
Proof.
  destruct l as [|x l]; [discriminate|]. intros [= <-].
  destruct (fold_min_spec l x) as (Hin & Hle & Hall). split.
  - destruct Hin as [->|Hin]; [now left|now right].
  - intros y [<-|Hy]; [exact Hle|now apply Hall].
Qed.

Lemma py_max_spec (l : list Z) (m : Z) :
  py_max l = inr m -> In m l /\ (forall y, In y l -> y <= m).
Proof.
  destruct l as [|x l]; [discriminate|]. intros [= <-].
  destruct (fold_max_spec l x) as (Hin & Hle & Hall). split.
  - destruct Hin as [->|Hin]; [now left|now right].
  - intros y [<-|Hy]; [exact Hle|now apply Hall].
Qed.

Lemma truediv_nonzero (a b : Z) :
  b <> 0 -> truediv a b = inr (inject_Z a / inject_Z b)%Q.
Proof.
  intros Hb. unfold truediv.
  destruct (Z.eqb_spec b 0) as [->|_]; [now destruct Hb|reflexivity].
Qed.

(** The first two summaries write nothing. *)
Lemma get_basic_stats_frame self : fst (get_basic_stats self) = self.
Proof.
  unfold get_basic_stats. rewrite py_bind_get.
  destruct (sequences_count self =? 0); [reflexivity|].
  unfold py_bind, lift.
  destruct (truediv _ _); [reflexivity|].
  destruct (py_min _); [reflexivity|].
  destruct (py_max _); reflexivity.
Qed.

Lemma get_quality_stats_frame self : fst (get_quality_stats self) = self.
Proof.
  unfold get_quality_stats. rewrite py_bind_get.
  destruct (bool_decide _); [reflexivity|].
  unfold py_bind, lift.
  destruct (truediv _ _); [reflexivity|].
  destruct (py_min _); [reflexivity|].
  destruct (py_max _); reflexivity.
Qed.

Lemma base_counts_getitem_run (k : N) self :
  base_counts_getitem k self
  = (set_base_counts (touched k (base_counts self)) self,
     inr (default 0 (base_counts self !! k))).
Proof.
  unfold base_counts_getitem, touched.
  destruct (base_counts self !! k); [|reflexivity].
  destruct self; reflexivity.
Qed.

Lemma touched_lookup_ne (k j : N) (m : gmap N Z) :
  k <> j -> touched k m !! j = m !! j.
Proof.
  intros Hne. unfold touched. destruct (m !! k); [reflexivity|].
  now apply lookup_insert_ne.
Qed.

Lemma touched_default (k j : N) (m : gmap N Z) :
  default 0 (touched k m !! j) = default 0 (m !! j).
Proof.
  destruct (decide (k = j)) as [->|Hne].
  - unfold touched. destruct (m !! j) eqn:Hm; [now rewrite Hm|].
    now rewrite lookup_insert_eq.
  - now rewrite touched_lookup_ne.
Qed.

Lemma composition_step (total_bases : Z) (composition : list base_line)
    (base : N) self :
  py_bind (base_counts_getitem base) (fun count =>
    py_bind (if total_bases >? 0 then
               py_bind (lift (truediv count total_bases))
                       (fun q => py_ret (q * 100)%Q)
             else py_ret 0%Q)
            (fun percentage =>
               py_ret (composition ++ [mkLine base count percentage]))) self
  = (set_base_counts (touched base (base_counts self)) self,
     inr (composition
          ++ [percentage_line base (count_of self base) total_bases])).
Proof.
  unfold py_bind at 1. rewrite base_counts_getitem_run.
  unfold percentage_line, count_of.
  destruct (Z.gtb_spec total_bases 0) as [Hpos|Hle].
  - rewrite truediv_nonzero by lia. reflexivity.
  - reflexivity.
Qed.

(** What [get_base_composition] returns and what it leaves behind. *)
Lemma get_base_composition_run self :
  get_base_composition self
  = if bool_decide (base_counts self = ∅) then
      (self, inr (NoData "нет данных о составе оснований"))
    else
      let total_bases := py_sum (values (base_counts self)) in
      (set_base_counts
         (touched 67%N (touched 71%N (touched 84%N (touched 65%N
            (base_counts self))))) self,
       inr (Report [percentage_line 65%N (count_of self 65%N) total_bases;
                    percentage_line 84%N (count_of self 84%N) total_bases;
                    percentage_line 71%N (count_of self 71%N) total_bases;
                    percentage_line 67%N (count_of self 67%N) total_bases])).
Proof.
  unfold get_base_composition. rewrite py_bind_get.
  destruct (bool_decide (base_counts self = ∅)); [reflexivity|].
  cbv zeta. change (py "ATGC") with [65%N; 84%N; 71%N; 67%N].
  cbn [for_fold].
  unfold py_bind at 1 2. rewrite composition_step.
  unfold py_bind at 1. rewrite composition_step.
  unfold py_bind at 1. rewrite composition_step.
  unfold py_bind at 1. rewrite composition_step.
  unfold count_of. cbn [base_counts set_base_counts].
  rewrite !touched_default.
  destruct self; reflexivity.
Qed.

(** ** The sum of the table *)




Section Reachable.
Context `{Runtime}.

Lemma get_base_composition_consistent self :
  consistent self -> consistent (fst (get_base_composition self)).
Proof.
  intros Hs. rewrite get_base_composition_run.
  destruct (bool_decide (base_counts self = ∅)) eqn:He; [exact Hs|].
  apply bool_decide_eq_false in He.
  destruct Hs as [Hc Ht Hk Hp]. cbv zeta. cbn [fst].
  assert (Hok : table_ok
    (touched 67%N (touched 71%N (touched 84%N (touched 65%N
       (base_counts self)))))).
  { repeat first
      [ apply touched_ok; [reflexivity | | ]
      | apply touched_nonempty
      | exact He
      | exact (conj Hk Hp) ]. }
  destruct Hok as [Hk' Hp'].
  split; cbn [sequences_count total_length sequence_lengths base_counts
              set_base_counts]; assumption.
Qed.

(** Every state of a processor satisfies the invariant. *)
Lemma reachable_consistent self : reachable self -> consistent self.
Proof.
  induction 1 as [|fs file_path self|self _ IH|self _ IH|self _ IH].
  - apply init_consistent.
  - apply parse_fastq_consistent.
  - now rewrite get_basic_stats_frame.
  - now rewrite get_quality_stats_frame.
  - now apply get_base_composition_consistent.
Qed.


(** [get_basic_stats] on a populated, consistent state. *)
Lemma get_basic_stats_populated self :
  consistent self -> sequences_count self <> 0 ->
  exists min_length max_length,
    py_min (sequence_lengths self) = inr min_length
    /\ py_max (sequence_lengths self) = inr max_length
    /\ get_basic_stats self
       = (self,
          inr (Report (mkBasic (sequences_count self)
                 (inject_Z (total_length self)
                  / inject_Z (sequences_count self))%Q
                 min_length max_length (total_length self)))).
Proof.
  intros [Hc _ _ _] Hn.
  destruct (sequence_lengths self) as [|x l] eqn:Hl.
  { rewrite Hc in Hn. now destruct Hn. }
  exists (fold_left Z.min l x), (fold_left Z.max l x).
  split; [reflexivity|]. split; [reflexivity|].
  unfold get_basic_stats. rewrite py_bind_get.
  destruct (Z.eqb_spec (sequences_count self) 0) as [Hz|_];
    [now destruct Hn|].
  rewrite truediv_nonzero by exact Hn. rewrite py_bind_lift_inr, Hl.
  reflexivity.
Qed.

End Reachable.

(** ** Lengths, the mean, and the extremes *)

Section Length_claims.
Context `{Runtime}.

(** C10. In every state of a processor between calls, [sequences_count]
    is the length of [sequence_lengths] and [get_basic_stats] returns
    without raising; when [sequences_count] is positive the list is not
    empty and the minimum and maximum reported are its least and greatest
    elements. *)
Theorem basic_stats_well_defined self :
  reachable self ->
  sequences_count self = len (sequence_lengths self)
  /\ (exists v, snd (get_basic_stats self) = inr v)
  /\ (0 < sequences_count self ->
      sequence_lengths self <> []
      /\ exists report,
           snd (get_basic_stats self) = inr (Report report)
           /\ In (bs_min_length report) (sequence_lengths self)
           /\ In (bs_max_length report) (sequence_lengths self)
           /\ forall x, In x (sequence_lengths self) ->
                bs_min_length report <= x <= bs_max_length report).
Proof.
  intros Hr. pose proof (reachable_consistent self Hr) as Hs.
  split; [apply (cons_count _ Hs)|]. split.
  - destruct (Z.eq_dec (sequences_count self) 0) as [Hz|Hn].
    + unfold get_basic_stats. rewrite py_bind_get, Hz. cbn. eauto.
    + destruct (get_basic_stats_populated self Hs Hn)
        as (mn & mx & _ & _ & Hrun).
      rewrite Hrun. cbn. eauto.
  - intros Hpos. split.
    + intros Hnil. rewrite (cons_count _ Hs), Hnil in Hpos.
      unfold len in Hpos. cbn in Hpos. lia.
    + destruct (get_basic_stats_populated self Hs ltac:(lia))
        as (mn & mx & Hmin & Hmax & Hrun).
      rewrite Hrun. eexists. split; [reflexivity|].
      cbn [bs_min_length bs_max_length].
      destruct (py_min_spec _ _ Hmin) as [Hin1 Hle1].
      destruct (py_max_spec _ _ Hmax) as [Hin2 Hle2].
      split; [exact Hin1|]. split; [exact Hin2|].
      intros x Hx. split; [now apply Hle1|now apply Hle2].
Qed.

End Length_claims.

(** ** The base composition *)



Section Composition_claims.
Context `{Runtime}.


End Composition_claims.

(** ** Empty states, resets, and the two ways of reading a file *)

Section Lifecycle_claims.
Context `{Runtime}.

Lemma decoded_content_empty (fs : filesystem) (file_path : list N) :
  fs file_path = Some [] -> decoded_content fs file_path = inr [].
Proof.
  intros Hfs. unfold decoded_content, gzip_open, plain_open.
  destruct (endswith file_path (py ".gz")); rewrite Hfs, ?gunzip_nil;
    now rewrite (utf8_decode_ignore_ascii [] (List.Forall_nil _)).
Qed.

(** C6. On the state [__init__] builds each of the three summaries
    returns its "no data" message; parsing a file of zero bytes returns
    normally and leaves that state, so the three summaries asked after it
    return their "no data" messages, none of them raising. *)
Theorem no_data_on_empty_state :
  (get_basic_stats init = (init, inr (NoData "нет данных для анализа"))
   /\ get_quality_stats init = (init, inr (NoData "нет данных о качестве"))
   /\ get_base_composition init
      = (init, inr (NoData "нет данных о составе оснований")))
  /\ forall (fs : filesystem) (file_path : list N) self,
       fs file_path = Some [] ->
       parse_fastq fs file_path self = (init, inr tt)
       /\ analyze fs file_path self
          = (init, inr (NoData "нет данных для анализа",
                        NoData "нет данных о качестве",
                        NoData "нет данных о составе оснований")).
Proof.
  split; [repeat split|].
  intros fs file_path self Hfs.
  assert (Hparse : parse_fastq fs file_path self = (init, inr tt)).
  { rewrite parse_fastq_run, (decoded_content_empty _ _ Hfs).
    reflexivity. }
  split; [exact Hparse|].
  unfold analyze. unfold py_bind at 1. rewrite Hparse. reflexivity.
Qed.

(** The five assignments at the head of [parse_fastq] zero every field. *)
Lemma reset_assignments self :
  set_base_counts ∅
    (set_quality_scores []
       (set_sequence_lengths []
          (set_total_length 0 (set_sequences_count 0 self))))
  = reset self.
Proof. reflexivity. Qed.

(** C7. [parse_fastq] starts from the reset state whatever the state it
    is called in: its outcome does not depend on the state before the
    call, it is the outcome of the rest of the method run on the reset
    state (every counter 0, every list and the table empty), and analysing
    the same file twice in succession gives the same three summaries and
    the same state. *)
Theorem parse_fastq_resets (fs : filesystem) (file_path : list N)
    self1 self2 :
  parse_fastq fs file_path self1 = parse_fastq fs file_path self2
  /\ parse_fastq fs file_path self1
     = py_bind (lift (decoded_content fs file_path))
               (fun content => parse_lines (readlines content)) (reset self1)
  /\ analyze fs file_path self1 = analyze fs file_path self2
  /\ (let first := analyze fs file_path self1 in
      let second := analyze fs file_path (fst first) in
      snd second = snd first /\ fst second = fst first).
Proof.
  assert (Hany : forall a b,
            parse_fastq fs file_path a = parse_fastq fs file_path b).
  { intros a b. now rewrite !parse_fastq_run. }
  assert (Han : forall a b,
            analyze fs file_path a = analyze fs file_path b).
  { intros a b. unfold analyze. unfold py_bind at 1 5.
    now rewrite (Hany a b). }
  split; [apply Hany|]. split; [reflexivity|]. split; [apply Han|].
  cbv zeta. now rewrite (Han (fst (analyze fs file_path self1)) self1).
Qed.

(** C8. When the path ends in [.gz] and the archive decompresses to the
    bytes of a file read as plain text, the two calls of [parse_fastq]
    end in the same state with the same outcome, and so do the two
    analyses. *)
Theorem gzip_same_statistics (fs : filesystem)
    (gz_path plain_path : list N) (compressed content : list byte)
    self1 self2 :
  endswith gz_path (py ".gz") = true ->
  endswith plain_path (py ".gz") = false ->
  fs gz_path = Some compressed ->
  gunzip compressed = Some content ->
  fs plain_path = Some content ->
  parse_fastq fs gz_path self1 = parse_fastq fs plain_path self2
  /\ analyze fs gz_path self1 = analyze fs plain_path self2.
Proof.
  intros Hgz Hplain Hc Hz Hp.
  assert (Hparse : parse_fastq fs gz_path self1
                   = parse_fastq fs plain_path self2).
  { rewrite !parse_fastq_run. unfold decoded_content.
    rewrite Hgz, Hplain. unfold gzip_open, plain_open.
    now rewrite Hc, Hz, Hp. }
  split; [exact Hparse|].
  unfold analyze. unfold py_bind at 1 5. now rewrite Hparse.
Qed.

End Lifecycle_claims.

(** ** What the summaries write *)

Section Frame.
Context `{Runtime}.

(** [get_base_composition] leaves the four other fields, the count read
    for every key, and the emptiness of the table as they were. *)
Lemma get_base_composition_frame self :
  let self' := fst (get_base_composition self) in
  sequences_count self' = sequences_count self
  /\ total_length self' = total_length self
  /\ sequence_lengths self' = sequence_lengths self
  /\ quality_scores self' = quality_scores self
  /\ (forall base, count_of self' base = count_of self base)
  /\ (base_counts self' = ∅ <-> base_counts self = ∅).
Proof.
  cbv zeta. rewrite get_base_composition_run.
  destruct (bool_decide (base_counts self = ∅)) eqn:He.
  { cbn [fst]. repeat split; auto. }
  apply bool_decide_eq_false in He. cbv zeta. cbn [fst].
  repeat split; try reflexivity.
  - intros base. unfold count_of. cbn [base_counts set_base_counts].
    now rewrite !touched_default.
  - cbn [base_counts set_base_counts]. intros Hempty.
    exfalso. revert Hempty. now repeat apply touched_nonempty.
  - intros Hempty. now destruct He.
Qed.

(** It writes nothing at all when the four bases are already keys. *)
Lemma get_base_composition_frame_full self :
  (forall base, char_in base (py "ATGC") = true ->
     is_Some (base_counts self !! base)) ->
  fst (get_base_composition self) = self.
Proof.
  intros Hall. rewrite get_base_composition_run.
  destruct (bool_decide (base_counts self = ∅)); [reflexivity|].
  cbv zeta. cbn [fst].
  assert (Hkeep : forall k m, is_Some (m !! k) -> touched k m = m).
  { intros k m [v Hv]. unfold touched. now rewrite Hv. }
  rewrite (Hkeep 65%N) by (now apply Hall).
  rewrite (Hkeep 84%N) by (now apply Hall).
  rewrite (Hkeep 71%N) by (now apply Hall).
  rewrite (Hkeep 67%N) by (now apply Hall).
  destruct self; reflexivity.
Qed.

End Frame.

(** C9. On the file whose single record has the sequence AAAA,
    [parse_fastq] leaves a table with the one key A; the call of
    [get_base_composition] that follows stores the keys T, G and C with the
    count 0, so the state after the call is not the state before it. *)
Theorem get_base_composition_stores_keys :
  let self := fst (parse_fastq sample_fs (py "poly_a.fastq") init) in
  let self' := fst (get_base_composition self) in
  base_counts self = {[ 65%N := 4 ]}
  /\ base_counts self'
     = <[ 67%N := 0 ]> (<[ 71%N := 0 ]> (<[ 84%N := 0 ]> {[ 65%N := 4 ]}))
  /\ base_counts self !! 84%N = None
  /\ base_counts self' !! 84%N = Some 0
  /\ self' <> self.
Proof.
  cbv zeta.
  assert (Hbefore :
    base_counts (fst (parse_fastq sample_fs (py "poly_a.fastq") init))
    !! 84%N = None) by (vm_compute; reflexivity).
  assert (Hafter :
    base_counts (fst (get_base_composition
      (fst (parse_fastq sample_fs (py "poly_a.fastq") init))))
    !! 84%N = Some 0) by (vm_compute; reflexivity).
  split; [vm_compute; reflexivity|]. split; [vm_compute; reflexivity|].
  split; [exact Hbefore|]. split; [exact Hafter|].
  intros Heq. rewrite Heq, Hbefore in Hafter. discriminate.
Qed.

(** ** The model on the sample files *)

(** The two-record scenario of the specification. *)
Example scenario_two_records :
  let self := fst (parse_fastq sample_fs (py "reads.fastq") init) in
  sequences_count self = 2
  /\ total_length self = 9
  /\ sequence_lengths self = [4; 5]
  /\ quality_scores self = [0; 0; 0; 0; 40; 40; 40; 40; 40]
  /\ base_counts self
     = list_to_map [(65%N, 2); (67%N, 2); (71%N, 2); (84%N, 2)]
  /\ snd (get_basic_stats self) = inr (Report (mkBasic 2 (9 # 2) 4 5 9))
  /\ snd (get_quality_stats self)
     = inr (Report (mkQuality (200 # 9) 0 40 9)).
Proof. vm_compute. repeat split. Qed.



Lemma parse_block_quality_witness :
  let self' := fst (parse_block sample_lines 4 init) in
  let q := strip (py "IIIII" ++ [LF]) in
  quality_scores self'
  = quality_scores init ++ map (fun c => ord c - 33) q
  /\ quality_scores self' !! (length (quality_scores init) + 0)%nat
     = Some (ord 73%N - 33).
Proof.
  assert (H1 : sample_lines !! (4 * 1 + 1)%nat = Some (py "ACGTN" ++ [LF]))
    by (vm_compute; reflexivity).
  assert (H3 : sample_lines !! (4 * 1 + 3)%nat = Some (py "IIIII" ++ [LF]))
    by (vm_compute; reflexivity).
  destruct (@parse_block_quality ascii_runtime sample_lines 1%nat _ _ init
              H1 H3) as (Hall & Hat & _).
  split; [exact Hall|]. apply (Hat 0%nat 73%N). vm_compute. reflexivity.
Defined.

Lemma basic_stats_well_defined_witness :
  let self := fst (parse_fastq sample_fs (py "reads.fastq") init) in
  sequences_count self = len (sequence_lengths self)
  /\ (exists v, snd (get_basic_stats self) = inr v)
  /\ sequence_lengths self <> [].
Proof.
  destruct (@basic_stats_well_defined ascii_runtime
              (fst (parse_fastq sample_fs (py "reads.fastq") init))
              (reach_parse_fastq sample_fs (py "reads.fastq") init))
    as (Hcount & Hview & Hpop).
  split; [exact Hcount|]. split; [exact Hview|].
  apply Hpop. vm_compute. reflexivity.
Defined.


Lemma no_data_on_empty_state_witness :
  parse_fastq sample_fs (py "empty.fastq.gz") init = (init, inr tt)
  /\ analyze sample_fs (py "empty.fastq.gz") init
     = (init, inr (NoData "нет данных для анализа",
                   NoData "нет данных о качестве",
                   NoData "нет данных о составе оснований")).
Proof.
  apply (proj2 (@no_data_on_empty_state ascii_runtime) sample_fs
           (py "empty.fastq.gz") init).
  vm_compute. reflexivity.
Defined.

Lemma gzip_same_statistics_witness :
  parse_fastq sample_fs (py "reads.fastq.gz") init
  = parse_fastq sample_fs (py "reads.fastq") init
  /\ analyze sample_fs (py "reads.fastq.gz") init
     = analyze sample_fs (py "reads.fastq") init.
Proof.
  apply (@gzip_same_statistics ascii_runtime sample_fs
           (py "reads.fastq.gz") (py "reads.fastq")
           (x1f :: x8b :: two_records) two_records init init).
  - vm_compute. reflexivity.
  - vm_compute. reflexivity.
  - vm_compute. reflexivity.
  - vm_compute. reflexivity.
  - vm_compute. reflexivity.
Defined.

(** * Further properties of the processor *)

(** ** The whole file in closed form *)

Lemma tally_app (u v : list N) (m : gmap N Z) :
  tally (u ++ v) m = tally v (tally u m).
Proof. unfold tally. apply fold_left_app. Qed.

Section Whole_file.
Context `{Runtime}.

Lemma ingest_all_closed (records : list (list N * list N)) self :
  fold_left ingest records self
  = mkProcessor (sequences_count self + len records)
                (total_length self + py_sum (lengths_of records))
                (sequence_lengths self ++ lengths_of records)
                (quality_scores self ++ scores_of records)
                (tally (bases_of records) (base_counts self)).
Proof.
  revert self. induction records as [|[s q] records IH]; intros self.
  - destruct self. cbn. unfold len, py_sum. cbn.
    rewrite !app_nil_r, !Z.add_0_r. reflexivity.
  - cbn [fold_left]. rewrite IH. unfold lengths_of, scores_of, bases_of.
    cbn [ingest sequences_count total_length sequence_lengths
         quality_scores base_counts map flat_map fst snd].
    rewrite py_sum_cons, tally_app, <- !app_assoc.
    unfold len. cbn [length app]. f_equal; lia.
Qed.

(** X1. When the file opens, [parse_fastq] returns normally and leaves:
    as count the number of records, as total the sum of the trimmed
    sequence lengths, as [sequence_lengths] those lengths in the order of
    the file, as [quality_scores] the scores of the trimmed quality lines
    one record after the other, and as [base_counts] the tally of all the
    upper-cased sequences read in that order. *)
Theorem parse_fastq_closed_form (fs : filesystem)
    (file_path content : list N) self :
  decoded_content fs file_path = inr content ->
  let records := read_records (readlines content) in
  parse_fastq fs file_path self
  = (mkProcessor (len records) (py_sum (lengths_of records))
                 (lengths_of records) (scores_of records)
                 (tally (bases_of records) ∅),
     inr tt).
Proof.
  intros Hc. cbv zeta. rewrite parse_fastq_run, Hc, ingest_all_closed.
  reflexivity.
Qed.

(** X2. [parse_fastq] raises only while opening and reading the file,
    never from the loop: for a path that cannot be opened it raises what
    [open] raises for that path, which is [ValueError] and not [OSError]
    when the path holds a NUL character; for a path that ends in [.gz] and
    bytes that are no archive it raises the decompression error. A path
    without that ending that can be opened always parses, whatever the
    bytes. After an exception the processor is in the reset state, not in
    the state it had before the call. *)
Theorem parse_fastq_failure (fs : filesystem) (file_path : list N) self :
  (fs file_path = None ->
     parse_fastq fs file_path self = (init, inl (open_error file_path)))
  /\ (fs file_path = None -> char_in 0%N file_path = true ->
        parse_fastq fs file_path self = (init, inl ValueError))
  /\ (forall raw, fs file_path = Some raw ->
        endswith file_path (py ".gz") = true -> gunzip raw = None ->
        parse_fastq fs file_path self = (init, inl DecompressError))
  /\ (forall raw, fs file_path = Some raw ->
        endswith file_path (py ".gz") = false ->
        snd (parse_fastq fs file_path self) = inr tt)
  /\ (forall e, snd (parse_fastq fs file_path self) = inl e ->
        fst (parse_fastq fs file_path self) = init
        /\ (fs file_path = None /\ e = open_error file_path
            \/ endswith file_path (py ".gz") = true
               /\ e = DecompressError
               /\ exists raw, fs file_path = Some raw /\ gunzip raw = None)).
Proof.
  rewrite parse_fastq_run. unfold decoded_content, gzip_open, plain_open.
  destruct (endswith file_path (py ".gz")); cbv beta;
    (split; [|split; [|split; [|split]]]).
  - intros ->. reflexivity.
  - intros -> Hnul. now rewrite (open_error_nul _ Hnul).
  - intros raw -> _ ->. reflexivity.
  - intros raw _ [=].
  - intros e. destruct (fs file_path) as [raw|];
      [destruct (gunzip raw) eqn:Hz|]; cbn; intros [= <-].
    + split; [reflexivity|]. right. eauto.
    + split; [reflexivity|]. left. auto.
  - intros ->. reflexivity.
  - intros -> Hnul. now rewrite (open_error_nul _ Hnul).
  - intros raw _ [=].
  - intros raw -> _. reflexivity.
  - intros e. destruct (fs file_path) as [raw|]; cbn; intros [= <-]; auto.
Qed.

End Whole_file.

Lemma parse_fastq_closed_form_witness :
  let records :=
    read_records (readlines (ascii_decode_ignore two_records)) in
  parse_fastq sample_fs (py "reads.fastq") init
  = (mkProcessor (len records) (py_sum (lengths_of records))
                 (lengths_of records) (scores_of records)
                 (tally (bases_of records) ∅),
     inr tt).
Proof.
  apply (@parse_fastq_closed_form ascii_runtime sample_fs
           (py "reads.fastq") (ascii_decode_ignore two_records) init).
  vm_compute. reflexivity.
Defined.

Lemma parse_fastq_failure_witness :
  parse_fastq more_fs (py "absent.fastq") init = (init, inl OSError)
  /\ parse_fastq more_fs [97%N; 0%N; 98%N] init = (init, inl ValueError)
  /\ parse_fastq more_fs (py "plain.gz") init = (init, inl DecompressError)
  /\ snd (parse_fastq more_fs (py "reads.fastq") init) = inr tt
  /\ (fst (parse_fastq more_fs (py "plain.gz") init) = init
      /\ (more_fs (py "plain.gz") = None
            /\ DecompressError = open_error (py "plain.gz")
          \/ endswith (py "plain.gz") (py ".gz") = true
             /\ DecompressError = DecompressError
             /\ exists raw, more_fs (py "plain.gz") = Some raw
                            /\ gunzip raw = None)).
Proof.
  split; [|split; [|split; [|split]]].
  - apply (proj1 (@parse_fastq_failure ascii_runtime more_fs
                    (py "absent.fastq") init)).
    vm_compute. reflexivity.
  - apply (proj1 (proj2 (@parse_fastq_failure ascii_runtime more_fs
                           [97%N; 0%N; 98%N] init))).
    + vm_compute. reflexivity.
    + vm_compute. reflexivity.
  - apply (proj1 (proj2 (proj2 (@parse_fastq_failure ascii_runtime more_fs
                                   (py "plain.gz") init))) two_records).
    + vm_compute. reflexivity.
    + vm_compute. reflexivity.
    + vm_compute. reflexivity.
  - apply (proj1 (proj2 (proj2 (proj2
             (@parse_fastq_failure ascii_runtime more_fs
                (py "reads.fastq") init)))) two_records).
    + vm_compute. reflexivity.
    + vm_compute. reflexivity.
  - apply (proj2 (proj2 (proj2 (proj2
             (@parse_fastq_failure ascii_runtime more_fs
                (py "plain.gz") init)))) DecompressError).
    vm_compute. reflexivity.
Defined.

(** ** What the parser does not look at *)

Lemma read_records_ext_bounded (n : nat) :
  forall lines lines' : list (list N),
    (length lines <= n)%nat ->
    length lines = length lines' ->
    (forall i l l', (i mod 4 = 1 \/ i mod 4 = 3)%nat ->
       lines !! i = Some l -> lines' !! i = Some l' -> strip l = strip l') ->
    read_records lines = read_records lines'.
Proof.
  induction n as [|n IH]; intros lines lines' Hn Hlen Hsame.
  - destruct lines; [|cbn in Hn; lia]. destruct lines'; [reflexivity|].
    discriminate.
  - destruct lines as [|a [|b [|c [|d rest]]]];
      destruct lines' as [|a' [|b' [|c' [|d' rest']]]];
      try discriminate; try reflexivity.
    cbn [read_records].
    rewrite (Hsame 1%nat b b' (or_introl eq_refl) eq_refl eq_refl).
    rewrite (Hsame 3%nat d d' (or_intror eq_refl) eq_refl eq_refl).
    f_equal. apply IH.
    + cbn in Hn. lia.
    + cbn in Hlen. lia.
    + intros i l l' Hi Hl Hl'.
      apply (Hsame (S (S (S (S i)))) l l'); [|exact Hl|exact Hl'].
      replace (S (S (S (S i)))) with (i + 1 * 4)%nat by lia.
      now rewrite Nat.Div0.mod_add.
Qed.

Lemma read_records_ext (lines lines' : list (list N)) :
  length lines = length lines' ->
  (forall i l l', (i mod 4 = 1 \/ i mod 4 = 3)%nat ->
     lines !! i = Some l -> lines' !! i = Some l' -> strip l = strip l') ->
  read_records lines = read_records lines'.
Proof. apply (read_records_ext_bounded (length lines)). lia. Qed.

Lemma lstrip_blank (a : list N) : blank a -> lstrip a = [].
Proof.
  induction 1 as [|c a Hc _ IH]; [reflexivity|]. cbn. now rewrite Hc.
Qed.

Lemma lstrip_app (s t : list N) :
  lstrip (s ++ t)
  = match lstrip s with
    | [] => lstrip t
    | c :: s' => (c :: s') ++ t
    end.
Proof.
  induction s as [|c s IH]; [reflexivity|].
  cbn. destruct (is_space c); [exact IH|reflexivity].
Qed.

Lemma lstrip_blank_app (a s : list N) : blank a -> lstrip (a ++ s) = lstrip s.
Proof. intros Ha. now rewrite lstrip_app, (lstrip_blank a Ha). Qed.

Lemma rstrip_app_blank (s b : list N) : blank b -> rstrip (s ++ b) = rstrip s.
Proof.
  intros Hb. unfold rstrip. rewrite rev_app_distr, lstrip_blank_app.
  - reflexivity.
  - unfold blank. now apply Forall_rev.
Qed.

(** White space around a line does not change what [strip] returns. *)
Lemma strip_padded (a s b : list N) :
  blank a -> blank b -> strip (a ++ s ++ b) = strip s.
Proof.
  intros Ha Hb. unfold strip. rewrite (lstrip_blank_app a _ Ha), lstrip_app.
  destruct (lstrip s) as [|c s'] eqn:Hs.
  - now rewrite (lstrip_blank b Hb).
  - now apply rstrip_app_blank.
Qed.

Section Ignored.
Context `{Runtime}.

(** X3. The first and third line of a block are never read: two lists of
    lines of the same length that agree on every line whose index is 1 or
    3 modulo 4 give the same state and outcome, whatever stands in the
    identifier and separator lines. *)
Theorem identifier_and_separator_ignored (lines lines' : list (list N)) self :
  length lines = length lines' ->
  (forall i, (i mod 4 = 1 \/ i mod 4 = 3)%nat -> lines !! i = lines' !! i) ->
  parse_lines lines self = parse_lines lines' self.
Proof.
  intros Hlen Hsame. rewrite !parse_lines_run.
  rewrite (read_records_ext lines lines' Hlen); [reflexivity|].
  intros i l l' Hi Hl Hl'. rewrite (Hsame i Hi), Hl' in Hl.
  now injection Hl as ->.
Qed.

(** X4. White space added before and after the lines changes nothing:
    padding each line on both sides with white space gives the same state
    and outcome as the lines themselves. *)
Theorem surrounding_space_ignored
    (pads : list (list N * list N)) (lines : list (list N)) self :
  Forall (fun p => blank (fst p) /\ blank (snd p)) pads ->
  length pads = length lines ->
  parse_lines (zip_with (fun p l => fst p ++ l ++ snd p) pads lines) self
  = parse_lines lines self.
Proof.
  intros Hpads Hlen. rewrite !parse_lines_run.
  rewrite (read_records_ext
             (zip_with (fun p l => fst p ++ l ++ snd p) pads lines) lines);
    [reflexivity| |].
  - rewrite length_zip_with. lia.
  - intros i l' l _ Hl' Hl.
    apply lookup_zip_with_Some in Hl' as (p & l0 & -> & Hp & Hl0).
    rewrite Hl0 in Hl. injection Hl as ->.
    rewrite Forall_forall in Hpads.
    destruct (Hpads p) as [Ha Hb].
    { apply list_elem_of_lookup. eauto. }
    now apply strip_padded.
Qed.

(** X5. Blocks add up: when the first list holds complete blocks only,
    parsing the two lists one after the other on the same processor is
    parsing their concatenation. *)
Theorem parse_lines_app (n : nat) (lines1 lines2 : list (list N)) self :
  length lines1 = (4 * n)%nat ->
  parse_lines (lines1 ++ lines2) self
  = py_bind (parse_lines lines1) (fun _ => parse_lines lines2) self.
Proof.
  intros Hlen. unfold py_bind. rewrite !parse_lines_run.
  rewrite (read_records_app n) by exact Hlen.
  now rewrite fold_left_app.
Qed.

End Ignored.

Lemma universal_newlines_id (s : list N) :
  ~ In CR s -> universal_newlines s = s.
Proof.
  induction s as [|c s IH]; intros Hcr; [reflexivity|].
  cbn [universal_newlines].
  destruct (N.eqb_spec c CR) as [->|_].
  - destruct Hcr. now left.
  - rewrite IH; [reflexivity|]. intros Hin. apply Hcr. now right.
Qed.

Lemma universal_newlines_to_crlf (s : list N) :
  ~ In CR s -> universal_newlines (to_crlf s) = s.
Proof.
  induction s as [|c s IH]; intros Hcr; [reflexivity|].
  assert (Hs : ~ In CR s) by (intros Hin; apply Hcr; now right).
  unfold to_crlf. cbn [flat_map]. fold (to_crlf s).
  destruct (N.eqb_spec c LF) as [->|Hlf].
  - cbn. now rewrite IH.
  - cbn [app universal_newlines].
    destruct (N.eqb_spec c CR) as [->|_].
    + destruct Hcr. now left.
    + now rewrite IH.
Qed.

Section Line_ends.
Context `{Runtime}.

(** X6. Line ends: a file whose decoded content has CR LF where another
    has LF is parsed to the same state with the same outcome. *)
Theorem crlf_same_statistics (fs fs' : filesystem)
    (file_path file_path' content : list N) self self' :
  ~ In CR content ->
  decoded_content fs file_path = inr content ->
  decoded_content fs' file_path' = inr (to_crlf content) ->
  parse_fastq fs' file_path' self' = parse_fastq fs file_path self.
Proof.
  intros Hcr Hc Hc'. rewrite !parse_fastq_run, Hc, Hc'.
  unfold readlines.
  rewrite universal_newlines_to_crlf by exact Hcr.
  now rewrite universal_newlines_id by exact Hcr.
Qed.

End Line_ends.

Lemma identifier_and_separator_ignored_witness :
  parse_lines (readlines (ascii_decode_ignore two_records)) init
  = parse_lines (readlines (ascii_decode_ignore two_records_renamed)) init.
Proof.
  apply (@identifier_and_separator_ignored ascii_runtime).
  - vm_compute. reflexivity.
  - let l := eval vm_compute in
        (readlines (ascii_decode_ignore two_records)) in
    replace (readlines (ascii_decode_ignore two_records)) with l
      by (vm_compute; reflexivity).
    let l := eval vm_compute in
        (readlines (ascii_decode_ignore two_records_renamed)) in
    replace (readlines (ascii_decode_ignore two_records_renamed)) with l
      by (vm_compute; reflexivity).
    intros i Hi.
    do 8 (destruct i as [|i];
          [first [ reflexivity
                 | exfalso; destruct Hi as [Hi|Hi]; cbv in Hi; discriminate ]
          |]).
    reflexivity.
Defined.

Lemma surrounding_space_ignored_witness :
  parse_lines
    (zip_with (fun p l => fst p ++ l ++ snd p)
       (replicate 8 (py " ", [32%N; LF])) (map strip sample_lines)) init
  = parse_lines (map strip sample_lines) init.
Proof.
  apply (@surrounding_space_ignored ascii_runtime).
  - unfold blank. repeat constructor.
  - vm_compute. reflexivity.
Defined.

Lemma parse_lines_app_witness :
  parse_lines (take 4 sample_lines ++ drop 4 sample_lines) init
  = py_bind (parse_lines (take 4 sample_lines))
            (fun _ => parse_lines (drop 4 sample_lines)) init.
Proof.
  apply (@parse_lines_app ascii_runtime 1%nat). vm_compute. reflexivity.
Defined.

Lemma crlf_same_statistics_witness :
  parse_fastq more_fs (py "crlf.fastq") init
  = parse_fastq sample_fs (py "reads.fastq") init.
Proof.
  apply (@crlf_same_statistics ascii_runtime sample_fs more_fs
           (py "reads.fastq") (py "crlf.fastq")
           (ascii_decode_ignore two_records) init init).
  - rewrite <- list_elem_of_In.
    apply (bool_decide_eq_false_1
             (CR ∈ ascii_decode_ignore two_records)).
    vm_compute. reflexivity.
  - vm_compute. reflexivity.
  - vm_compute. reflexivity.
Defined.

(** ** Lengths of the two lines of a record *)

Lemma len_cons {A} (x : A) (l : list A) : len (x :: l) = 1 + len l.
Proof. unfold len. cbn [length]. lia. Qed.

Lemma len_scores_of (records : list (list N * list N)) :
  len (scores_of records) = py_sum (map (fun r => len (snd r)) records).
Proof.
  induction records as [|[s q] records IH]; [reflexivity|].
  unfold scores_of in *. cbn [flat_map map snd].
  rewrite len_app, py_sum_cons, IH. unfold len. now rewrite length_map.
Qed.

Section Record_lengths.
Context `{Runtime}.

(** X7. The two lines of a record are never compared: whatever their
    lengths the loop returns normally, and the number of quality scores
    kept is the sum of the lengths of the trimmed quality lines. It is
    [total_length] when in every record the two trimmed lines have the same
    length. *)
Theorem quality_count_unchecked (lines : list (list N)) :
  let self' := fst (parse_lines lines init) in
  let records := read_records lines in
  snd (parse_lines lines init) = inr tt
  /\ len (quality_scores self')
     = py_sum (map (fun r => len (snd r)) records)
  /\ (Forall (fun r => length (fst r) = length (snd r)) records ->
      len (quality_scores self') = total_length self').
Proof.
  cbv zeta. rewrite parse_lines_run, ingest_all_closed.
  cbn [fst snd quality_scores total_length init app].
  split; [reflexivity|]. split; [apply len_scores_of|].
  intros Hsame. rewrite len_scores_of. unfold lengths_of.
  rewrite Z.add_0_l. f_equal.
  induction Hsame as [|r records Hr _ IH]; [reflexivity|].
  cbn [map]. unfold len at 1 3. now rewrite Hr, IH.
Qed.

End Record_lengths.

Lemma quality_count_unchecked_witness :
  len (quality_scores (fst (parse_lines sample_lines init)))
  = total_length (fst (parse_lines sample_lines init)).
Proof.
  apply (@quality_count_unchecked ascii_runtime sample_lines).
  vm_compute. repeat constructor.
Defined.

(** ** Lower case *)

Lemma ascii_upper_lt (c : N) : (c < 128)%N -> (ascii_upper c < 128)%N.
Proof.
  intros Hc. unfold ascii_upper.
  destruct ((97 <=? c) && (c <=? 122))%N; lia.
Qed.

Lemma ascii_upper_idem (c : N) : ascii_upper (ascii_upper c) = ascii_upper c.
Proof.
  unfold ascii_upper.
  destruct ((97 <=? c) && (c <=? 122))%N eqn:E.
  - apply andb_true_iff in E as [E1 E2]. apply N.leb_le in E1, E2.
    destruct (N.leb_spec 97 (c - 32)); [lia|reflexivity].
  - now rewrite E.
Qed.

Lemma occurrences_ascii_upper (base : N) (s : list N) :
  char_in base (py "ATGC") = true ->
  occurrences base (map ascii_upper s)
  = occurrences base s + occurrences (base + 32)%N s.
Proof.
  intros Hb. apply char_in_ATGC in Hb.
  induction s as [|c s IH]; [reflexivity|].
  cbn [map]. rewrite !occurrences_cons, IH.
  assert (Hc : (if decide (ascii_upper c = base) then 1 else 0)
               = (if decide (c = base) then 1 else 0)
                 + (if decide (c = (base + 32)%N) then 1 else 0)).
  { unfold ascii_upper.
    destruct (N.leb_spec 97 c), (N.leb_spec c 122); cbn [andb];
      repeat case_decide; lia. }
  lia.
Qed.

Section Lower_case.
Context `{Runtime}.

Lemma upper_ascii (s : list N) :
  Forall (fun c => (c < 128)%N) s -> upper s = map ascii_upper s.
Proof.
  unfold upper. induction 1 as [|c s Hc _ IH]; [reflexivity|].
  cbn [flat_map map]. now rewrite (upper_full_ascii c Hc), IH.
Qed.

(** X8. Case is folded before the tally: on an ASCII sequence
    [_count_bases] does what it does on the sequence written in upper
    case, and the counter of each of A, T, G, C grows by the number of its
    upper-case and of its lower-case occurrences. *)
Theorem lower_case_counted (sequence : list N) self :
  Forall (fun c => (c < 128)%N) sequence ->
  _count_bases sequence self = _count_bases (map ascii_upper sequence) self
  /\ forall base, char_in base (py "ATGC") = true ->
       default 0 (base_counts (fst (_count_bases sequence self)) !! base)
       = default 0 (base_counts self !! base)
         + occurrences base sequence + occurrences (base + 32)%N sequence.
Proof.
  intros Hs.
  assert (Hu : Forall (fun c => (c < 128)%N) (map ascii_upper sequence)).
  { apply Forall_map. eapply Forall_impl; [exact Hs|].
    intros c Hc. now apply ascii_upper_lt. }
  rewrite !_count_bases_run, (upper_ascii _ Hs), (upper_ascii _ Hu).
  rewrite map_map, (map_ext _ ascii_upper ascii_upper_idem).
  split; [reflexivity|].
  intros base Hb. cbn [fst base_counts set_base_counts].
  rewrite (tally_counted _ _ _ Hb), (occurrences_ascii_upper _ _ Hb). lia.
Qed.

End Lower_case.

Lemma lower_case_counted_witness :
  _count_bases (py "acgTn") init = _count_bases (py "ACGTN") init
  /\ default 0 (base_counts (fst (_count_bases (py "acgTn") init)) !! 84%N)
     = default 0 (base_counts init !! 84%N)
       + occurrences 84%N (py "acgTn") + occurrences (84 + 32)%N (py "acgTn").
Proof.
  destruct (@lower_case_counted ascii_runtime (py "acgTn") init)
    as [Hsame Hcount].
  - vm_compute. repeat constructor.
  - split; [exact Hsame|]. apply (Hcount 84%N). reflexivity.
Defined.

(** ** Bounds kept by the accumulator *)

Lemma py_sum_nonneg (l : list Z) :
  Forall (fun x => 0 <= x) l -> 0 <= py_sum l.
Proof.
  induction 1 as [|x l Hx _ IH]; [unfold py_sum; cbn; lia|].
  rewrite py_sum_cons. lia.
Qed.

Lemma lengths_of_nonneg (records : list (list N * list N)) :
  Forall (fun x => 0 <= x) (lengths_of records).
Proof.
  unfold lengths_of. apply Forall_map, Forall_forall. intros r _.
  apply len_nonneg.
Qed.

Lemma scores_of_bounded (records : list (list N * list N)) :
  Forall (fun q => -33 <= q) (scores_of records).
Proof.
  unfold scores_of. induction records as [|[s q] records IH]; [constructor|].
  cbn [flat_map snd]. apply Forall_app. split; [|exact IH].
  apply Forall_map, Forall_forall. intros c _. unfold ord. cbn. lia.
Qed.

Lemma sum_between (l : list Z) (m M : Z) :
  (forall x, In x l -> m <= x <= M) ->
  len l * m <= py_sum l <= len l * M.
Proof.
  induction l as [|x l IH]; intros Hall.
  - unfold len, py_sum. cbn. lia.
  - rewrite len_cons, py_sum_cons.
    pose proof (Hall x (or_introl eq_refl)).
    assert (len l * m <= py_sum l <= len l * M)
      by (apply IH; intros y Hy; apply Hall; now right).
    lia.
Qed.

Lemma mean_between (m M s n : Z) :
  0 < n -> n * m <= s <= n * M ->
  (inject_Z m <= inject_Z s / inject_Z n
   /\ inject_Z s / inject_Z n <= inject_Z M)%Q.
Proof.
  intros Hn [Hm HM].
  assert (Hpos : (0 < inject_Z n)%Q).
  { change (inject_Z 0 < inject_Z n)%Q. rewrite <- Zlt_Qlt. exact Hn. }
  split.
  - apply Qle_shift_div_l; [exact Hpos|].
    rewrite <- inject_Z_mult, <- Zle_Qle. lia.
  - apply Qle_shift_div_r; [exact Hpos|].
    rewrite <- inject_Z_mult, <- Zle_Qle. lia.
Qed.

Lemma get_quality_stats_run self :
  get_quality_stats self
  = (self,
     inr match quality_scores self with
         | [] => NoData "нет данных о качестве"
         | x :: l =>
             Report (mkQuality
                       (inject_Z (py_sum (x :: l)) / inject_Z (len (x :: l)))%Q
                       (fold_left Z.min l x) (fold_left Z.max l x)
                       (len (x :: l)))
         end).
Proof.
  unfold get_quality_stats. rewrite py_bind_get.
  destruct (quality_scores self) as [|x l]; [reflexivity|].
  rewrite bool_decide_eq_false_2 by discriminate.
  rewrite truediv_nonzero by (rewrite len_cons; pose proof (len_nonneg l); lia).
  reflexivity.
Qed.

Section Bounds.
Context `{Runtime}.

Lemma parse_fastq_bounds (fs : filesystem) (file_path : list N) self :
  Forall (fun x => 0 <= x)
         (sequence_lengths (fst (parse_fastq fs file_path self)))
  /\ Forall (fun q => -33 <= q)
            (quality_scores (fst (parse_fastq fs file_path self))).
Proof.
  rewrite parse_fastq_run.
  destruct (decoded_content fs file_path) as [e|content]; cbn [fst].
  - split; constructor.
  - rewrite ingest_all_closed. cbn [sequence_lengths quality_scores init app].
    split; [apply lengths_of_nonneg|apply scores_of_bounded].
Qed.

Lemma reachable_bounds self :
  reachable self ->
  Forall (fun x => 0 <= x) (sequence_lengths self)
  /\ Forall (fun q => -33 <= q) (quality_scores self).
Proof.
  induction 1 as [|fs file_path self|self _ IH|self _ IH|self _ IH].
  - split; constructor.
  - apply parse_fastq_bounds.
  - now rewrite get_basic_stats_frame.
  - now rewrite get_quality_stats_frame.
  - destruct (get_base_composition_frame self) as (_ & _ & -> & -> & _).
    exact IH.
Qed.

(** X9. In every state of a processor between calls the count and the
    total are not negative, no recorded length is negative, no quality
    score is below -33, and [base_counts] has no key other than A, T, G, C
    and no negative count. *)
Theorem reachable_state_bounds self :
  reachable self ->
  0 <= sequences_count self
  /\ 0 <= total_length self
  /\ Forall (fun x => 0 <= x) (sequence_lengths self)
  /\ Forall (fun q => -33 <= q) (quality_scores self)
  /\ forall k v, base_counts self !! k = Some v ->
       (k = 65%N \/ k = 84%N \/ k = 71%N \/ k = 67%N) /\ 0 <= v.
Proof.
  intros Hr. destruct (reachable_consistent self Hr) as [Hc Ht Hk _].
  destruct (reachable_bounds self Hr) as [Hl Hq].
  split; [rewrite Hc; apply len_nonneg|].
  split; [rewrite Ht; now apply py_sum_nonneg|].
  split; [exact Hl|]. split; [exact Hq|].
  intros k v Hkv. destruct (Hk k v Hkv) as [Hin Hv].
  split; [now apply char_in_ATGC|exact Hv].
Qed.

(** X10. On a populated state between calls [get_basic_stats] writes
    nothing and reports the count and the total of the state, a minimum
    that is not negative, and a mean that lies between the minimum and the
    maximum. *)
Theorem get_basic_stats_mean_between self :
  reachable self ->
  0 < sequences_count self ->
  exists report,
    get_basic_stats self = (self, inr (Report report))
    /\ bs_count report = sequences_count self
    /\ bs_total_length report = total_length self
    /\ 0 <= bs_min_length report
    /\ (inject_Z (bs_min_length report) <= bs_avg_length report
        /\ bs_avg_length report <= inject_Z (bs_max_length report))%Q.
Proof.
  intros Hr Hpos. pose proof (reachable_consistent self Hr) as Hs.
  destruct (get_basic_stats_populated self Hs ltac:(lia))
    as (mn & mx & Hmin & Hmax & Hrun).
  rewrite Hrun. eexists. split; [reflexivity|].
  cbn [bs_count bs_total_length bs_min_length bs_max_length bs_avg_length].
  destruct (py_min_spec _ _ Hmin) as [Hin1 Hle1].
  destruct (py_max_spec _ _ Hmax) as [Hin2 Hle2].
  split; [reflexivity|]. split; [reflexivity|]. split.
  - destruct (reachable_bounds self Hr) as [Hl _].
    rewrite Forall_forall in Hl. apply Hl. now apply list_elem_of_In.
  - apply mean_between; [exact Hpos|].
    rewrite (cons_total _ Hs), (cons_count _ Hs).
    apply sum_between. intros x Hx. split; [now apply Hle1|now apply Hle2].
Qed.

End Bounds.

(** ** The mean length as a double *)

Section Mean_claims.
Context `{Runtime}.

(** C4. After a call of [parse_fastq], and after any number of passes of
    its loop from the reset state, [total_length] is the sum of
    [sequence_lengths]. When [sequences_count] is positive, the mean
    length [get_basic_stats] computes is the double nearest to the
    quotient of [total_length] by [sequences_count], which lies within
    the quotient times 2^-53 (plus 2^-1075) of it, and the summary shows
    that double with one decimal, within 0.05 of it. *)
Theorem total_length_is_sum (fs : filesystem) (file_path : list N) self :
  let self' := fst (parse_fastq fs file_path self) in
  total_length self' = py_sum (sequence_lengths self')
  /\ (forall (lines : list (list N)) (j : nat),
        let mid := fst (for_each (take j (py_range 0 (len lines) 4))
                                 (parse_block lines) init) in
        total_length mid = py_sum (sequence_lengths mid))
  /\ (0 < sequences_count self' ->
      exists report,
        snd (get_basic_stats self') = inr (Report report)
        /\ let exact := (inject_Z (total_length self')
                         / inject_Z (sequences_count self'))%Q in
           avg_length report = binary64 exact
           /\ (exact - (exact * 2 ^ (-53) + 2 ^ (-1075)) <= avg_length report
               /\ avg_length report
                  <= exact + (exact * 2 ^ (-53) + 2 ^ (-1075)))%Q
           /\ (inject_Z (avg_length_text report) - avg_length report * 10
               <= 1 # 2
               /\ avg_length report * 10 - inject_Z (avg_length_text report)
                  <= 1 # 2)%Q).
Proof.
  cbv zeta. split; [|split].
  - apply cons_total, parse_fastq_consistent.
  - intros lines j. apply cons_total, parse_blocks_consistent,
      init_consistent.
  - intros Hpos.
    pose proof (parse_fastq_consistent fs file_path self) as Hs.
    destruct (get_basic_stats_populated _ Hs ltac:(lia))
      as (mn & mx & _ & _ & Hrun).
    rewrite Hrun. eexists. split; [reflexivity|].
    unfold avg_length_text, avg_length. cbn [bs_avg_length].
    split; [reflexivity|]. split.
    + apply binary64_error. apply Qle_shift_div_l.
      * change (inject_Z 0 < inject_Z (sequences_count
                  (fst (parse_fastq fs file_path self))))%Q.
        now rewrite <- Zlt_Qlt.
      * rewrite Qmult_0_l.
        change (inject_Z 0 <= inject_Z (total_length
                  (fst (parse_fastq fs file_path self))))%Q.
        rewrite <- Zle_Qle, (cons_total _ Hs).
        apply py_sum_nonneg, parse_fastq_bounds.
    + apply (fixed_error 1).
Qed.

End Mean_claims.

Lemma total_length_is_sum_witness :
  exists report,
    snd (get_basic_stats (fst (parse_fastq sample_fs (py "reads.fastq") init)))
    = inr (Report report)
    /\ avg_length report = binary64 (9 # 2)
    /\ (inject_Z (avg_length_text report) - avg_length report * 10 <= 1 # 2)%Q.
Proof.
  destruct (@total_length_is_sum ascii_runtime sample_fs (py "reads.fastq")
              init) as (_ & _ & Hmean).
  destruct Hmean as (report & Hrun & Havg & _ & Htext & _).
  - vm_compute. reflexivity.
  - exists report. split; [exact Hrun|]. split; [|exact Htext].
    rewrite Havg. vm_compute. reflexivity.
Defined.

(** One record in three holds a base: the quotient is 1/3, the mean
    computed is another number and the summary shows 0.3. Five bases in
    four records: the quotient 5/4 is a double, and the summary shows
    1.2. *)
Lemma total_length_is_sum_counterexample :
  let thirds :=
    fst (@parse_fastq ascii_runtime float_fs (py "thirds.fastq") init) in
  let quarters :=
    fst (@parse_fastq ascii_runtime float_fs (py "quarters.fastq") init) in
  (total_length thirds = 1 /\ sequences_count thirds = 3
   /\ exists report,
        snd (get_basic_stats thirds) = inr (Report report)
        /\ ~ (avg_length report == 1 # 3)%Q
        /\ avg_length_text report = 3)
  /\ (total_length quarters = 5 /\ sequences_count quarters = 4
      /\ exists report,
           snd (get_basic_stats quarters) = inr (Report report)
           /\ (avg_length report == 5 # 4)%Q
           /\ avg_length_text report = 12).
Proof.
  cbv zeta. split.
  - split; [vm_compute; reflexivity|]. split; [vm_compute; reflexivity|].
    eexists. split; [vm_compute; reflexivity|].
    split; [|vm_compute; reflexivity].
    vm_compute. discriminate.
  - split; [vm_compute; reflexivity|]. split; [vm_compute; reflexivity|].
    eexists. split; [vm_compute; reflexivity|].
    split; vm_compute; reflexivity.
Defined.


Lemma reachable_state_bounds_witness :
  0 <= total_length (fst (parse_fastq sample_fs (py "reads.fastq") init))
  /\ Forall (fun q => -33 <= q)
       (quality_scores (fst (parse_fastq sample_fs (py "reads.fastq") init))).
Proof.
  destruct (@reachable_state_bounds ascii_runtime
              (fst (parse_fastq sample_fs (py "reads.fastq") init))
              (reach_parse_fastq sample_fs (py "reads.fastq") init))
    as (_ & Ht & _ & Hq & _).
  split; [exact Ht|exact Hq].
Defined.

Lemma get_basic_stats_mean_between_witness :
  exists report,
    get_basic_stats (fst (parse_fastq sample_fs (py "reads.fastq") init))
    = (fst (parse_fastq sample_fs (py "reads.fastq") init),
       inr (Report report))
    /\ (inject_Z (bs_min_length report) <= bs_avg_length report
        /\ bs_avg_length report <= inject_Z (bs_max_length report))%Q.
Proof.
  destruct (@get_basic_stats_mean_between ascii_runtime
              (fst (parse_fastq sample_fs (py "reads.fastq") init))
              (reach_parse_fastq sample_fs (py "reads.fastq") init))
    as (report & Hrun & _ & _ & _ & Hmean).
  - vm_compute. reflexivity.
  - exists report. split; [exact Hrun|exact Hmean].
Defined.


(** ** [get_base_composition] called again *)






(** ** Lines without content *)

Lemma strip_blank (s : list N) : blank s -> strip s = [].
Proof. intros Hs. unfold strip. now rewrite (lstrip_blank s Hs). Qed.

Lemma read_records_blank (n : nat) (lines : list (list N)) :
  Forall blank lines -> length lines = (4 * n)%nat ->
  read_records lines = replicate n ([], []).
Proof.
  revert lines. induction n as [|n IH]; intros lines Hb Hlen.
  - destruct lines; [reflexivity|discriminate].
  - destruct lines as [|l0 [|l1 [|l2 [|l3 rest]]]]; cbn in Hlen; try lia.
    inversion Hb as [|? ? _ Hb1]; subst.
    inversion Hb1 as [|? ? H1 Hb2]; subst.
    inversion Hb2 as [|? ? _ Hb3]; subst.
    inversion Hb3 as [|? ? H3 Hb4]; subst.
    cbn [read_records replicate].
    rewrite (strip_blank l1 H1), (strip_blank l3 H3), IH by (trivial; lia).
    reflexivity.
Qed.

Lemma py_sum_replicate_0 (n : nat) : py_sum (replicate n 0) = 0.
Proof.
  induction n as [|n IH]; [reflexivity|].
  cbn [replicate]. rewrite py_sum_cons. lia.
Qed.

Section Blank.
Context `{Runtime}.

(** X13. Blank lines are records: a file of 4n lines of white space
    gives n records of length 0, no quality score and an empty table. The
    quality and the composition summaries then answer "no data" while
    [get_basic_stats], for n > 0, reports n sequences of mean, least and
    greatest length 0. *)
Theorem blank_lines_are_records (n : nat) (lines : list (list N)) :
  Forall blank lines -> length lines = (4 * n)%nat ->
  let self' := fst (parse_lines lines init) in
  self' = mkProcessor (Z.of_nat n) 0 (replicate n 0) [] ∅
  /\ snd (get_quality_stats self') = inr (NoData "нет данных о качестве")
  /\ snd (get_base_composition self')
     = inr (NoData "нет данных о составе оснований")
  /\ (0 < Z.of_nat n ->
      exists report,
        snd (get_basic_stats self') = inr (Report report)
        /\ bs_count report = Z.of_nat n
        /\ (bs_avg_length report == 0)%Q
        /\ bs_min_length report = 0
        /\ bs_max_length report = 0).
Proof.
  intros Hb Hlen. cbv zeta.
  assert (Hstate : fst (parse_lines lines init)
                   = mkProcessor (Z.of_nat n) 0 (replicate n 0) [] ∅).
  { rewrite parse_lines_run, (read_records_blank n lines Hb Hlen).
    rewrite ingest_all_closed. cbn [fst].
    assert (Hl : lengths_of (replicate n (@nil N, @nil N)) = replicate n 0).
    { clear. induction n as [|n IH]; [reflexivity|].
      cbn [replicate]. unfold lengths_of in *. cbn [map]. now rewrite IH. }
    assert (Hs : scores_of (replicate n (@nil N, @nil N)) = []).
    { clear. induction n as [|n IH]; [reflexivity|]. exact IH. }
    assert (Hu : bases_of (replicate n (@nil N, @nil N)) = []).
    { clear. induction n as [|n IH]; [reflexivity|]. exact IH. }
    rewrite Hl, Hs, Hu, py_sum_replicate_0. unfold len.
    rewrite length_replicate. reflexivity. }
  assert (Hcons : consistent (fst (parse_lines lines init))).
  { apply parse_blocks_consistent, init_consistent. }
  rewrite Hstate in *.
  split; [reflexivity|]. split; [reflexivity|]. split; [reflexivity|].
  intros Hpos.
  destruct (get_basic_stats_populated _ Hcons) as (mn & mx & Hmin & Hmax & Hrun).
  { cbn. lia. }
  rewrite Hrun. eexists. split; [reflexivity|].
  cbn [bs_count bs_avg_length bs_min_length bs_max_length sequences_count
       total_length sequence_lengths] in *.
  destruct (py_min_spec _ _ Hmin) as [Hin1 _].
  destruct (py_max_spec _ _ Hmax) as [Hin2 _].
  apply list_elem_of_In, elem_of_replicate in Hin1 as [-> _].
  apply list_elem_of_In, elem_of_replicate in Hin2 as [-> _].
  split; [reflexivity|]. split; [|split; reflexivity].
  unfold Qdiv. apply Qmult_0_l.
Qed.

End Blank.

Lemma blank_lines_are_records_witness :
  fst (parse_lines (readlines (ascii_decode_ignore blank_lines)) init)
  = mkProcessor 1 0 [0] [] ∅
  /\ snd (get_quality_stats
            (fst (parse_lines (readlines (ascii_decode_ignore blank_lines))
                    init)))
     = inr (NoData "нет данных о качестве").
Proof.
  destruct (@blank_lines_are_records ascii_runtime 1%nat
              (readlines (ascii_decode_ignore blank_lines)))
    as (Hstate & Hquality & _).
  - vm_compute. repeat constructor.
  - vm_compute. reflexivity.
  - split; [exact Hstate|exact Hquality].
Defined.

(** ** Sequences without any of the four bases *)

Lemma tally_empty_iff (u : list N) (m : gmap N Z) :
  tally u m = ∅
  <-> m = ∅ /\ Forall (fun c => char_in c (py "ATGC") = false) u.
Proof.
  revert m. induction u as [|c u IH]; intros m.
  - cbn. split; [intros ->; split; [reflexivity|constructor]|now intros [-> _]].
  - unfold tally. cbn [fold_left]. fold (tally u (tally_base m c)).
    rewrite IH. unfold tally_base.
    destruct (char_in c (py "ATGC")) eqn:Hc.
    + split.
      * intros [Hins _]. now apply insert_nonempty in Hins.
      * intros [_ Hall]. inversion Hall; congruence.
    + split.
      * intros [-> Hall]. split; [reflexivity|now constructor].
      * intros [-> Hall]. split; [reflexivity|now inversion Hall].
Qed.

Section No_bases.
Context `{Runtime}.

(** X14. After the loop [get_base_composition] answers "no data" exactly
    when no upper-cased sequence of the file holds an A, T, G or C (for
    instance sequences of N only), however many records were read. *)
Theorem composition_no_data_iff (lines : list (list N)) :
  let self' := fst (parse_lines lines init) in
  snd (get_base_composition self')
  = inr (NoData "нет данных о составе оснований")
  <-> Forall (fun c => char_in c (py "ATGC") = false)
             (bases_of (read_records lines)).
Proof.
  cbv zeta. rewrite get_base_composition_run, parse_lines_run,
    ingest_all_closed.
  cbn [fst base_counts init].
  destruct (bool_decide (tally (bases_of (read_records lines)) ∅ = ∅))
    eqn:He.
  - apply bool_decide_eq_true in He. apply tally_empty_iff in He as [_ Hall].
    split; [now intros _|reflexivity].
  - apply bool_decide_eq_false in He. cbv zeta. cbn [snd]. split.
    + discriminate.
    + intros Hall. destruct He. apply tally_empty_iff. now split.
Qed.

End No_bases.

Lemma composition_no_data_iff_witness :
  snd (get_base_composition
         (fst (parse_lines (readlines (ascii_decode_ignore only_n)) init)))
  = inr (NoData "нет данных о составе оснований")
  /\ sequences_count
       (fst (parse_lines (readlines (ascii_decode_ignore only_n)) init)) = 1.
Proof.
  split.
  - apply (proj2 (@composition_no_data_iff ascii_runtime
                    (readlines (ascii_decode_ignore only_n)))).
    vm_compute. repeat constructor.
  - vm_compute. reflexivity.
Defined.

(** ** Tallied bases against the total length *)

Lemma Forall_lstrip (P : N -> Prop) (s : list N) :
  Forall P s -> Forall P (lstrip s).
Proof.
  induction 1 as [|c s Hc Hs IH]; [constructor|].
  cbn. destruct (is_space c); [exact IH|now constructor].
Qed.

Lemma Forall_strip (P : N -> Prop) (s : list N) :
  Forall P s -> Forall P (strip s).
Proof.
  intros Hs. unfold strip, rstrip.
  apply Forall_rev, Forall_lstrip, Forall_rev, Forall_lstrip, Hs.
Qed.

Lemma read_records_Forall_bounded (P : N -> Prop) (n : nat) :
  forall lines : list (list N),
    (length lines <= n)%nat ->
    Forall (Forall P) lines ->
    Forall (fun r => Forall P (fst r) /\ Forall P (snd r))
           (read_records lines).
Proof.
  induction n as [|n IH]; intros lines Hn Hall.
  - destruct lines; [constructor|cbn in Hn; lia].
  - destruct lines as [|l0 [|l1 [|l2 [|l3 rest]]]]; try constructor.
    + inversion Hall as [|? ? _ H1]; subst.
      inversion H1 as [|? ? Hl1 H2]; subst.
      inversion H2 as [|? ? _ H3]; subst.
      inversion H3 as [|? ? Hl3 _]; subst.
      split; now apply Forall_strip.
    + apply IH; [cbn in Hn; lia|].
      inversion Hall as [|? ? _ H1]; subst.
      inversion H1 as [|? ? _ H2]; subst.
      inversion H2 as [|? ? _ H3]; subst.
      now inversion H3.
Qed.

Lemma read_records_Forall (P : N -> Prop) (lines : list (list N)) :
  Forall (Forall P) lines ->
  Forall (fun r => Forall P (fst r) /\ Forall P (snd r)) (read_records lines).
Proof. apply (read_records_Forall_bounded P (length lines)). lia. Qed.

Section Tallied.
Context `{Runtime}.

Lemma lengths_of_ascii (records : list (list N * list N)) :
  Forall (fun r => Forall (fun c => (c < 128)%N) (fst r)
                   /\ Forall (fun c => (c < 128)%N) (snd r)) records ->
  py_sum (lengths_of records) = len (bases_of records).
Proof.
  induction 1 as [|[s q] records [Hs _] _ IH]; [reflexivity|].
  unfold lengths_of, bases_of in *. cbn [map flat_map fst].
  rewrite py_sum_cons, len_app, IH. unfold len.
  now rewrite (upper_ascii_length s Hs).
Qed.

(** X15. For a file of ASCII lines the bases tallied after the loop are
    at most [total_length], and what is missing is the number of
    characters of the sequences that are none of A, T, G, C once in upper
    case: the percentages of the composition are taken over the tallied
    bases, not over the total length. *)
Theorem tallied_at_most_total (lines : list (list N)) :
  Forall (Forall (fun c => (c < 128)%N)) lines ->
  let self' := fst (parse_lines lines init) in
  total_length self'
  = four_counts self'
    + len (filter (fun c => char_in c (py "ATGC") = false)
                  (bases_of (read_records lines)))
  /\ four_counts self' <= total_length self'.
Proof.
  intros Hascii. cbv zeta.
  rewrite parse_lines_run, ingest_all_closed. cbn [fst].
  unfold four_counts, count_of.
  cbn [total_length base_counts init].
  rewrite !tally_counted by reflexivity.
  rewrite !lookup_empty. cbn [default].
  rewrite (lengths_of_ascii _ (read_records_Forall _ _ Hascii)).
  pose proof (len_tallied_untallied (bases_of (read_records lines))).
  pose proof (len_nonneg
    (filter (fun c => char_in c (py "ATGC") = false)
            (bases_of (read_records lines)))).
  lia.
Qed.

(** X16. When the trimmed quality lines hold only the printable
    characters from [!] to [~], every score kept by the loop lies between
    0 and 93, and so do the least and the greatest score
    [get_quality_stats] reports. *)
Theorem phred_range (lines : list (list N)) :
  Forall (fun r => Forall (fun c => (33 <= c <= 126)%N) (snd r))
         (read_records lines) ->
  let self' := fst (parse_lines lines init) in
  Forall (fun q => 0 <= q <= 93) (quality_scores self')
  /\ forall report,
       snd (get_quality_stats self') = inr (Report report) ->
       0 <= qs_min_quality report /\ qs_max_quality report <= 93.
Proof.
  intros Hq. cbv zeta.
  assert (Hall : Forall (fun q => 0 <= q <= 93)
                   (quality_scores (fst (parse_lines lines init)))).
  { rewrite parse_lines_run, ingest_all_closed.
    cbn [fst quality_scores init app]. unfold scores_of.
    induction Hq as [|[s q] records Hr _ IH]; [constructor|].
    cbn [flat_map snd] in *. apply Forall_app. split; [|exact IH].
    apply Forall_map. eapply Forall_impl; [exact Hr|].
    intros c Hc. unfold ord. cbn beta in *. lia. }
  split; [exact Hall|].
  intros report Hrep. rewrite get_quality_stats_run in Hrep.
  cbn [snd] in Hrep.
  destruct (quality_scores (fst (parse_lines lines init))) as [|x l] eqn:Hqs;
    [discriminate|].
  injection Hrep as <-. cbn [qs_min_quality qs_max_quality].
  destruct (py_min_spec (x :: l) _ eq_refl) as [Hin1 _].
  destruct (py_max_spec (x :: l) _ eq_refl) as [Hin2 _].
  rewrite Forall_forall in Hall.
  apply list_elem_of_In in Hin1, Hin2.
  pose proof (Hall _ Hin1). pose proof (Hall _ Hin2). lia.
Qed.

End Tallied.

Lemma tallied_at_most_total_witness :
  four_counts (fst (parse_lines sample_lines init))
  <= total_length (fst (parse_lines sample_lines init)).
Proof.
  apply (@tallied_at_most_total ascii_runtime sample_lines).
  vm_compute. repeat constructor.
Defined.

Lemma phred_range_witness :
  Forall (fun q => 0 <= q <= 93)
         (quality_scores (fst (parse_lines sample_lines init))).
Proof.
  apply (@phred_range ascii_runtime sample_lines).
  let r := eval vm_compute in (read_records sample_lines) in
  replace (read_records sample_lines) with r by (vm_compute; reflexivity).
  repeat match goal with
         | |- Forall _ _ => constructor; cbn [snd]
         end; lia.
Defined.

(** * Properties of the window *)

Section Window_properties.
Context `{Runtime}.
Variable fs : filesystem.
Variable basename : list N -> list N.

Lemma decoded_content_opened (file_path content : list N) :
  decoded_content fs file_path = inr content ->
  exists raw, fs file_path = Some raw.
Proof.
  unfold decoded_content, gzip_open, plain_open.
  destruct (endswith file_path (py ".gz")), (fs file_path) as [raw|];
    try discriminate; eauto.
Qed.

Lemma get_basic_stats_total self :
  consistent self -> exists v, get_basic_stats self = (self, inr v).
Proof.
  intros Hs. destruct (Z.eq_dec (sequences_count self) 0) as [Hz|Hn].
  - unfold get_basic_stats. rewrite py_bind_get, Hz. cbn. eauto.
  - destruct (get_basic_stats_populated self Hs Hn)
      as (mn & mx & _ & _ & Hrun).
    eauto.
Qed.

Lemma get_base_composition_total self :
  exists v, get_base_composition self
            = (fst (get_base_composition self), inr v).
Proof.
  rewrite get_base_composition_run.
  destruct (bool_decide (base_counts self = ∅)); cbn [fst]; eauto.
Qed.

(** What [analyze_file] does when a file is selected. *)
Lemma analyze_file_run app (c : N) (rest : list N) :
  current_file app = Some (c :: rest) ->
  let file_path := c :: rest in
  let parsed := fst (parse_fastq fs file_path (processor app)) in
  match decoded_content fs file_path with
  | inl e =>
      parse_fastq fs file_path (processor app) = (init, inl e)
      /\ analyze_file fs basename app
         = (mkAnalyzer init (Some file_path) (analyze_btn app)
                       (file_label app) [] [] [] (dialogs app ++ [ShowError e]),
            inr tt)
  | inr content =>
      exists raw b q comp,
        fs file_path = Some raw
        /\ parse_fastq fs file_path (processor app) = (parsed, inr tt)
        /\ get_basic_stats parsed = (parsed, inr b)
        /\ get_quality_stats parsed = (parsed, inr q)
        /\ get_base_composition parsed
           = (fst (get_base_composition parsed), inr comp)
        /\ analyze_file fs basename app
           = (mkAnalyzer (fst (get_base_composition parsed))
                         (Some file_path) (analyze_btn app) (file_label app)
                         [BasicText b (len raw) (basename file_path)]
                         [QualityText q] [CompositionText comp]
                         (dialogs app),
              inr tt)
  end.
Proof.
  destruct app as [proc cur btn label bt qt ct ds].
  cbn [processor current_file analyze_btn file_label dialogs].
  intros ->. cbv zeta.
  pose proof (parse_fastq_run fs (c :: rest) proc) as Hrun.
  pose proof (parse_fastq_consistent fs (c :: rest) proc) as Hcons.
  destruct (decoded_content fs (c :: rest)) as [e|content] eqn:Hc.
  - split; [exact Hrun|].
    unfold analyze_file, try_except, gui_bind, show_loading_message,
      clear_results, show, set_texts, call.
    cbn [processor current_file analyze_btn file_label basic_text
         quality_text composition_text dialogs].
    rewrite Hrun. reflexivity.
  - destruct (decoded_content_opened _ _ Hc) as [raw Hraw].
    set (parsed := fst (parse_fastq fs (c :: rest) proc)) in *.
    destruct (get_basic_stats_total parsed Hcons) as [b Hb].
    pose proof (get_quality_stats_run parsed) as Hq.
    destruct (get_base_composition_total parsed) as [comp Hcomp].
    assert (Hparse : parse_fastq fs (c :: rest) proc = (parsed, inr tt)).
    { subst parsed. rewrite Hrun. reflexivity. }
    exists raw, b. eexists. exists comp.
    split; [exact Hraw|]. split; [exact Hparse|]. split; [exact Hb|].
    split; [exact Hq|]. split; [exact Hcomp|].
    unfold analyze_file, try_except, gui_bind, show_loading_message,
      display_results, set_texts, call, gui_bind, gui_lift, getsize.
    cbn [processor current_file analyze_btn file_label basic_text
         quality_text composition_text dialogs].
    rewrite Hparse.
    cbn [processor current_file analyze_btn file_label basic_text
         quality_text composition_text dialogs].
    rewrite Hb.
    cbn [processor current_file analyze_btn file_label basic_text
         quality_text composition_text dialogs].
    rewrite Hq.
    cbn [processor current_file analyze_btn file_label basic_text
         quality_text composition_text dialogs].
    rewrite Hcomp.
    cbn [processor current_file analyze_btn file_label basic_text
         quality_text composition_text dialogs].
    rewrite Hraw. reflexivity.
Qed.

(** X17. With a file selected [analyze_file] never lets an exception out
    and leaves the selection, the button and the label alone. Either the
    file opens: the processor holds the analysis of that file, the three
    text areas show its three summaries (the first with the size and the
    name of the file) and no message box appears. Or [parse_fastq] raises:
    an error box is shown, the three text areas are empty, and the
    processor is reset, so nothing of an earlier file is kept or shown. The
    loading message never stays. *)
Theorem analyze_file_outcome app (file_path : list N) :
  current_file app = Some file_path ->
  file_path <> [] ->
  let app' := fst (analyze_file fs basename app) in
  snd (analyze_file fs basename app) = inr tt
  /\ current_file app' = current_file app
  /\ analyze_btn app' = analyze_btn app
  /\ file_label app' = file_label app
  /\ ((exists raw b q comp,
         fs file_path = Some raw
         /\ analyze fs file_path (processor app)
            = (processor app', inr (b, q, comp))
         /\ basic_text app' = [BasicText b (len raw) (basename file_path)]
         /\ quality_text app' = [QualityText q]
         /\ composition_text app' = [CompositionText comp]
         /\ dialogs app' = dialogs app)
      \/ (exists e,
            parse_fastq fs file_path (processor app) = (init, inl e)
            /\ processor app' = init
            /\ basic_text app' = []
            /\ quality_text app' = []
            /\ composition_text app' = []
            /\ dialogs app' = dialogs app ++ [ShowError e])).
Proof.
  intros Hcur Hne. destruct file_path as [|c rest]; [now destruct Hne|].
  pose proof (analyze_file_run app c rest Hcur) as Hrun. cbv zeta in *.
  destruct (decoded_content fs (c :: rest)) as [e|content].
  - destruct Hrun as [Hparse ->].
    cbn [fst snd current_file analyze_btn file_label processor basic_text
         quality_text composition_text dialogs].
    repeat (split; [first [reflexivity | now symmetry]|]).
    right. exists e. repeat split. exact Hparse.
  - destruct Hrun as (raw & b & q & comp & Hraw & Hparse & Hb & Hq & Hcomp & ->).
    cbn [fst snd current_file analyze_btn file_label processor basic_text
         quality_text composition_text dialogs].
    repeat (split; [first [reflexivity | now symmetry]|]).
    left. exists raw, b, q, comp. repeat split; try assumption.
    unfold analyze, py_bind. rewrite Hparse, Hb, Hq, Hcomp. reflexivity.
Qed.

(** X18. In every state of the window reached from [__init__] by
    selecting files and clicking the analyse button: the button is enabled
    exactly when a file is selected; the label names the selected file; the
    warning "select a file first" has never been shown; no text area shows
    the loading message; and the processor is in a state between calls, so
    its summaries do not raise. *)
Theorem window_invariant app :
  window_state fs basename app ->
  (analyze_btn app = true
   <-> exists file_path, current_file app = Some file_path /\ file_path <> [])
  /\ file_label app = option_map basename (current_file app)
  /\ ~ In ShowWarning (dialogs app)
  /\ ~ In LoadingText
         (basic_text app ++ quality_text app ++ composition_text app)
  /\ reachable (processor app).
Proof.
  induction 1 as [|filename app _ IH|app _ IH].
  - cbn. split; [|repeat split; auto using reach_init].
    split; [discriminate|]. intros (p & Hp & _). discriminate.
  - destruct IH as (Hbtn & Hlabel & Hwarn & Hload & Hreach).
    destruct filename as [|c rest]; [cbn [select_file fst]; auto|].
    cbn [select_file fst analyze_btn current_file file_label dialogs
         basic_text quality_text composition_text processor option_map].
    split; [|auto].
    split; [|reflexivity]. intros _. exists (c :: rest). now split.
  - destruct IH as (Hbtn & Hlabel & Hwarn & Hload & Hreach).
    unfold click_analyze.
    destruct (analyze_btn app) eqn:Hb; [|cbn [fst]; rewrite Hb; auto].
    destruct (proj1 Hbtn eq_refl) as (p & Hcur & Hne).
    destruct p as [|c rest]; [now destruct Hne|].
    pose proof (analyze_file_run app c rest Hcur) as Hrun. cbv zeta in Hrun.
    destruct (decoded_content fs (c :: rest)) as [e|content].
    + destruct Hrun as [_ ->].
      cbn [fst analyze_btn current_file file_label dialogs basic_text
           quality_text composition_text processor].
      split; [rewrite Hb; split; [eauto|reflexivity]|].
      split; [now rewrite Hlabel, Hcur|].
      split.
      { intros Hin. apply in_app_or in Hin as [Hin|[Hin|[]]];
          [now apply Hwarn|discriminate]. }
      split; [intros []|apply reach_init].
    + destruct Hrun as (raw & b & q & comp & _ & _ & _ & _ & _ & ->).
      cbn [fst analyze_btn current_file file_label dialogs basic_text
           quality_text composition_text processor].
      split; [rewrite Hb; split; [eauto|reflexivity]|].
      split; [now rewrite Hlabel, Hcur|].
      split; [exact Hwarn|].
      split.
      { cbn. intros [Hin|[Hin|[Hin|[]]]]; discriminate. }
      apply reach_get_base_composition, reach_parse_fastq.
Qed.

End Window_properties.

Lemma analyze_file_outcome_witness :
  let app := fst (select_file posix_basename (py "data/reads.fastq")
                    new_window) in
  snd (analyze_file sample_fs posix_basename app) = inr tt
  /\ current_file (fst (analyze_file sample_fs posix_basename app))
     = current_file app.
Proof.
  cbv zeta.
  destruct (@analyze_file_outcome ascii_runtime sample_fs posix_basename
              (fst (select_file posix_basename (py "data/reads.fastq")
                      new_window))
              (py "data/reads.fastq"))
    as (Hok & Hcur & _).
  - reflexivity.
  - vm_compute. discriminate.
  - split; [exact Hok|exact Hcur].
Defined.

Lemma window_invariant_witness :
  let app :=
    fst (click_analyze sample_fs posix_basename
           (fst (select_file posix_basename (py "reads.fastq") new_window))) in
  ~ In ShowWarning (dialogs app) /\ reachable (processor app).
Proof.
  cbv zeta.
  destruct (@window_invariant ascii_runtime sample_fs posix_basename
              (fst (click_analyze sample_fs posix_basename
                      (fst (select_file posix_basename (py "reads.fastq")
                              new_window)))))
    as (_ & _ & Hwarn & _ & Hreach).
  - apply window_click, window_select, window_new.
  - split; [exact Hwarn|exact Hreach].
Defined.

(** * The last line end *)

Lemma universal_newlines_snoc_bounded (n : nat) :
  forall (s : list N) (c : N),
    (length s <= n)%nat -> c <> CR -> c <> LF ->
    universal_newlines (s ++ [c; LF]) = universal_newlines (s ++ [c]) ++ [LF].
Proof.
  induction n as [|n IH]; intros s c Hn Hcr Hlf.
  - destruct s; [|cbn in Hn; lia]. cbn.
    destruct (N.eqb_spec c CR); [contradiction|]. reflexivity.
  - destruct s as [|d s].
    { cbn. destruct (N.eqb_spec c CR); [contradiction|]. reflexivity. }
    cbn [app universal_newlines].
    destruct (N.eqb_spec d CR) as [_|_].
    + destruct s as [|e s].
      * cbn [app]. destruct (N.eqb_spec c LF); [contradiction|].
        pose proof (IH [] c ltac:(cbn; lia) Hcr Hlf) as IH0.
        cbn [app] in IH0. rewrite IH0. reflexivity.
      * cbn [app]. destruct (N.eqb_spec e LF).
        -- rewrite (IH s c ltac:(cbn in Hn; lia) Hcr Hlf). reflexivity.
        -- pose proof (IH (e :: s) c ltac:(cbn in *; lia) Hcr Hlf) as IH0.
           cbn [app] in IH0. rewrite IH0. reflexivity.
    + rewrite (IH s c ltac:(cbn in Hn; lia) Hcr Hlf). reflexivity.
Qed.

Lemma split_keepends_snoc (t : list N) (c : N) :
  c <> LF ->
  exists ls l,
    split_keepends (t ++ [c]) = ls ++ [l]
    /\ split_keepends (t ++ [c; LF]) = ls ++ [l ++ [LF]].
Proof.
  intros Hlf. induction t as [|d t (ls & l & H1 & H2)].
  - exists [], [c]. cbn. destruct (N.eqb_spec c LF); [contradiction|].
    split; reflexivity.
  - cbn [app split_keepends]. rewrite H1, H2.
    destruct (N.eqb_spec d LF).
    + exists ([d] :: ls), l. split; reflexivity.
    + destruct ls as [|l0 ls].
      * exists [], (d :: l). split; reflexivity.
      * exists ((d :: l0) :: ls), l. split; reflexivity.
Qed.

Section Final_newline.
Context `{Runtime}.

(** X19. The line end after the last line may be missing: a file whose
    decoded content does not end in a line end is parsed to the same state
    as the same content followed by LF. *)
Theorem missing_final_newline (fs fs' : filesystem)
    (file_path file_path' content : list N) (c : N) self self' :
  c <> CR -> c <> LF ->
  decoded_content fs file_path = inr (content ++ [c]) ->
  decoded_content fs' file_path' = inr (content ++ [c; LF]) ->
  parse_fastq fs' file_path' self' = parse_fastq fs file_path self.
Proof.
  intros Hcr Hlf Hc Hc'. rewrite !parse_fastq_run, Hc, Hc'.
  unfold readlines.
  rewrite (universal_newlines_snoc_bounded (length content)) by auto.
  assert (Hsnoc : exists t d, universal_newlines (content ++ [c]) = t ++ [d]
                              /\ d <> LF).
  { clear Hc Hc'.
    assert (Hgen : forall n s, (length s <= n)%nat ->
              exists t, universal_newlines (s ++ [c]) = t ++ [c]).
    { induction n as [|n IH]; intros s Hn.
      - destruct s; [|cbn in Hn; lia]. exists []. cbn.
        destruct (N.eqb_spec c CR); [contradiction|]. reflexivity.
      - destruct s as [|d s].
        { exists []. cbn. destruct (N.eqb_spec c CR); [contradiction|].
          reflexivity. }
        cbn [app universal_newlines].
        destruct (N.eqb_spec d CR) as [_|_].
        + destruct s as [|e s].
          * cbn [app]. destruct (N.eqb_spec c LF); [contradiction|].
            destruct (IH [] ltac:(cbn; lia)) as [t Ht]. cbn [app] in Ht.
            exists (LF :: t). now rewrite Ht.
          * cbn [app]. destruct (N.eqb_spec e LF).
            -- destruct (IH s ltac:(cbn in Hn; lia)) as [t Ht].
               exists (LF :: t). now rewrite Ht.
            -- destruct (IH (e :: s) ltac:(cbn in *; lia)) as [t Ht].
               cbn [app] in Ht. exists (LF :: t). now rewrite Ht.
        + destruct (IH s ltac:(cbn in Hn; lia)) as [t Ht].
          exists (d :: t). now rewrite Ht. }
    destruct (Hgen (length content) content ltac:(lia)) as [t Ht].
    exists t, c. now split. }
  destruct Hsnoc as (t & d & Ht & Hd). rewrite Ht, <- app_assoc.
  cbn [app].
  destruct (split_keepends_snoc t d Hd) as (ls & l & H1 & H2).
  rewrite H1, H2.
  rewrite (read_records_ext (ls ++ [l ++ [LF]]) (ls ++ [l])); [reflexivity| |].
  - rewrite !length_app. reflexivity.
  - intros i a b _ Ha Hb.
    destruct (Nat.lt_ge_cases i (length ls)) as [Hlt|Hge].
    + rewrite lookup_app_l in Ha, Hb by exact Hlt. congruence.
    + rewrite lookup_app_r in Ha, Hb by exact Hge.
      destruct (i - length ls)%nat; [|discriminate].
      cbn in Ha, Hb. injection Ha as <-. injection Hb as <-.
      apply (strip_padded [] l [LF]); unfold blank; repeat constructor.
Qed.

End Final_newline.

Lemma missing_final_newline_witness :
  parse_fastq sample_fs (py "reads.fastq") init
  = parse_fastq more_fs (py "no_eol.fastq") init.
Proof.
  apply (@missing_final_newline ascii_runtime more_fs sample_fs
           (py "no_eol.fastq") (py "reads.fastq")
           (removelast (ascii_decode_ignore two_records_no_eol)) 73%N
           init init).
  - discriminate.
  - discriminate.
  - vm_compute. reflexivity.
  - vm_compute. reflexivity.
Defined.

(** * One analysis after another *)

Section Window_history.
Context `{Runtime}.
Variable fs : filesystem.
Variable basename : list N -> list N.

(** X20. What the window shows after an analysis depends on the selected
    file only: two windows with the same file selected end with the same
    processor state and the same three text areas, whatever was analysed
    or shown in them before. *)
Theorem analyze_file_forgets app1 app2 (file_path : list N) :
  current_file app1 = Some file_path ->
  current_file app2 = Some file_path ->
  file_path <> [] ->
  let app1' := fst (analyze_file fs basename app1) in
  let app2' := fst (analyze_file fs basename app2) in
  processor app1' = processor app2'
  /\ basic_text app1' = basic_text app2'
  /\ quality_text app1' = quality_text app2'
  /\ composition_text app1' = composition_text app2'.
Proof.
  intros Hcur1 Hcur2 Hne.
  destruct file_path as [|c rest]; [now destruct Hne|]. cbv zeta.
  pose proof (analyze_file_run fs basename app1 c rest Hcur1) as Hrun1.
  pose proof (analyze_file_run fs basename app2 c rest Hcur2) as Hrun2.
  cbv zeta in Hrun1, Hrun2.
  assert (Hsame : parse_fastq fs (c :: rest) (processor app1)
                  = parse_fastq fs (c :: rest) (processor app2))
    by now rewrite !parse_fastq_run.
  rewrite Hsame in Hrun1.
  destruct (decoded_content fs (c :: rest)) as [e|content].
  - destruct Hrun1 as [_ ->]. destruct Hrun2 as [_ ->]. now cbn.
  - destruct Hrun1
      as (raw1 & b1 & q1 & comp1 & Hraw1 & _ & Hb1 & Hq1 & Hcomp1 & ->).
    destruct Hrun2
      as (raw2 & b2 & q2 & comp2 & Hraw2 & _ & Hb2 & Hq2 & Hcomp2 & ->).
    rewrite Hraw1 in Hraw2. injection Hraw2 as <-.
    rewrite Hb1 in Hb2. injection Hb2 as <-.
    rewrite Hq1 in Hq2. injection Hq2 as <-.
    rewrite Hcomp1 in Hcomp2. injection Hcomp2 as <-.
    now cbn.
Qed.

End Window_history.

Lemma analyze_file_forgets_witness :
  let first :=
    fst (click_analyze sample_fs posix_basename
           (fst (select_file posix_basename (py "poly_a.fastq") new_window))) in
  let app1 := fst (select_file posix_basename (py "reads.fastq") first) in
  let app2 := fst (select_file posix_basename (py "reads.fastq") new_window) in
  processor (fst (analyze_file sample_fs posix_basename app1))
  = processor (fst (analyze_file sample_fs posix_basename app2))
  /\ basic_text (fst (analyze_file sample_fs posix_basename app1))
     = basic_text (fst (analyze_file sample_fs posix_basename app2)).
Proof.
  cbv zeta.
  destruct (@analyze_file_forgets ascii_runtime sample_fs posix_basename
              (fst (select_file posix_basename (py "reads.fastq")
                 (fst (click_analyze sample_fs posix_basename
                    (fst (select_file posix_basename (py "poly_a.fastq")
                            new_window))))))
              (fst (select_file posix_basename (py "reads.fastq") new_window))
              (py "reads.fastq"))
    as (Hp & Hb & _).
  - vm_compute. reflexivity.
  - vm_compute. reflexivity.
  - vm_compute. discriminate.
  - split; [exact Hp|exact Hb].
Defined.
